(** * RamWare well-test calculation engine

    A shallow embedding of the calculation core of [ramware_app.py]: the
    static methods of [WellTestCalculator] and the two methods of
    [RamWareApp] that drive them ([perform_calculations] and
    [calculate_averages]).

    Python floats are read as real numbers: rounding, overflow, infinities
    and NaN are outside the model.  What the model keeps of Python's
    dynamic behaviour is
    - the exceptions the arithmetic can raise on reals (division by zero,
      [math.sqrt] of a negative number, zero to a negative power, an
      ordering comparison on a complex number) and the [try]/[except]
      blocks that replace them by defaults;
    - the fact that a negative float raised to a fractional power is a
      complex number, which is a value and not an exception. *)

From Stdlib Require Import Reals Lra Lia.
From stdpp Require Import gmap strings.

Open Scope R_scope.

(** ** Python numbers *)

Module PyNum.

#[global] Instance Rlt_decision : RelDecision Rlt := Rlt_dec.
#[global] Instance Rle_decision : RelDecision Rle := Rle_dec.
#[global] Instance Rgt_decision : RelDecision Rgt := Rgt_dec.
#[global] Instance Req_decision : EqDecision R := Req_dec_T.

(** A number is a float or a complex number; the model tracks the value of
    floats only. *)
Inductive num : Type :=
  | Fl (r : R)
  | Cx.

Definition lift2 (f : R -> R -> R) (a b : num) : num :=
  match a, b with
  | Fl x, Fl y => Fl (f x y)
  | _, _ => Cx
  end.

Definition nadd : num -> num -> num := lift2 Rplus.
Definition nsub : num -> num -> num := lift2 Rminus.
Definition nmul : num -> num -> num := lift2 Rmult.

(** The quotient of a number by a non-zero float. *)
Definition nquot (a : num) (d : R) : num :=
  match a with
  | Fl x => Fl (x / d)
  | Cx => Cx
  end.

(** [a / d] for a float divisor: [ZeroDivisionError] when [d] is zero. *)
Definition ndiv (a : num) (d : R) : option num :=
  if decide (d = 0) then None else Some (nquot a d).

Definition fdiv (a d : R) : option R :=
  if decide (d = 0) then None else Some (a / d).

(** Ordering comparisons, [max] and the [math] functions want a float:
    [TypeError] on a complex number. *)
Definition as_float (a : num) : option R :=
  match a with
  | Fl x => Some x
  | Cx => None
  end.

(** [math.sqrt]: [ValueError] below zero. *)
Definition math_sqrt (x : R) : option R :=
  if decide (x < 0) then None else Some (sqrt x).

(** [x ** y] with a float exponent. *)
Definition float_pow (x y : R) : option num :=
  if decide (0 < x) then Some (Fl (Rpower x y))
  else if decide (x = 0) then
    if decide (0 < y) then Some (Fl 0)
    else if decide (y = 0) then Some (Fl 1)
    else None
  else if decide (y = IZR (Int_part y)) then Some (Fl (powerRZ x (Int_part y)))
  else Some Cx.

(** [x ** y] where a complex result is as good as an exception for the
    caller (it reaches a [math] function before it can be returned). *)
Definition real_pow (x y : R) : option R :=
  float_pow x y ≫= as_float.

(** [max(a, b)] on floats keeps [a] unless [b > a]. *)
Definition py_max (a b : R) : R :=
  if decide (b > a) then b else a.

(** [try: body except: return handler]. *)
Definition try_except {A : Type} (body : option A) (handler : A) : A :=
  default handler body.

End PyNum.

Import PyNum.

(** The conditional expression [(gas * 1000) / q_oil if q_oil > 0 else 0],
    written once for GOR1 and once for the formation GOR1. *)
Definition guarded_ratio (gas : num) (q_oil : R) : option num :=
  if decide (q_oil > 0) then ndiv (nmul gas (Fl 1000)) q_oil else Some (Fl 0).

(** ** The calculation engine *)

Module WellTestCalculator.

(* No operation of the body can raise on floats: the handler is dead. *)
Definition calculate_oil_api_60f (oil_api oil_temp : R) : R :=
  let oil_temp := oil_temp * 9 / 5 + 32 in
  if decide (oil_temp <= 60) then oil_api
  else
    let delta_t := oil_temp - 60 in
    oil_api - (0.00035 * delta_t * (oil_api - 10)).

(* [math.exp] raises on overflow only. *)
Definition calculate_vcf_sep (sep_temp oil_api_60f : R) : R :=
  let sep_temp := sep_temp * 9 / 5 + 32 in
  let delta_t := sep_temp - 60 in
  let alpha := 0.00034878 - (0.00000091 * oil_api_60f) in
  let beta := 0.0000000025 in
  exp (- (alpha * delta_t + beta * (delta_t ^ 2))).

Definition calculate_shrinkage_factor (gor2 : num) (sep_p oil_api_60f : R) : R :=
  try_except
    (let c :=
       if decide (oil_api_60f > 35) then 0.00000025
       else if decide (25 <= oil_api_60f <= 35) then 0.0000003
       else 0.00000035 in
     gor2 ← as_float gor2;
     let c :=
       if decide (gor2 < 100 /\ sep_p < 50) then 0.00000005
       else if decide (gor2 < 100) then 0.0000001
       else if decide (sep_p < 50) then 0.0000002
       else c in
     Some (1 - (c * gor2 * sep_p)))
    1.

Definition _vasquez_beggs (sg_gas sep_p oil_api_60f sep_temp c1 c2 c3 : R) : num :=
  try_except
    (let sep_p := sep_p + 14.7 in
     let sep_temp := sep_temp * 9 / 5 + 32 in
     pw ← float_pow sep_p c2;
     q ← fdiv (c3 * oil_api_60f) (sep_temp + 460);
     Some (nmul (nmul (Fl (sg_gas * c1)) pw) (Fl (exp q))))
    (Fl 0).

(** The default values of [c1], [c2], [c3]. *)
Definition vb_c1 : R := 0.0178.
Definition vb_c2 : R := 1.1870.
Definition vb_c3 : R := 23.931.

(* [10 ** exponent] has a positive base: it is the real power. *)
Definition _standings (sg_gas sep_p oil_api_60f sep_temp : R) : num :=
  try_except
    (let sep_p := sep_p + 14.7 in
     let exponent := 0.0125 * oil_api_60f - 0.00091 * sep_temp in
     pw ← float_pow ((sep_p * Rpower 10 exponent) / 18.2) 1.204;
     Some (nmul (Fl sg_gas) pw))
    (Fl 0).

Definition _katz (sg_gas sep_p oil_api_60f sep_temp : R) : num :=
  try_except
    (let sep_p := sep_p + 14.7 in
     let exponent := 0.01245 * oil_api_60f - 0.00091 * sep_temp in
     pw ← float_pow sep_p 1.182;
     Some (nmul (nmul (Fl (0.224 * sg_gas)) pw) (Fl (Rpower 10 exponent))))
    (Fl 0).

(* The helpers catch their own faults, so nothing reaches this handler. *)
Definition calculate_gor2
    (oil_api_60f sg_gas sep_p sep_temp : R) (method : string) : num :=
  let sep_p := sep_p + 14.7 in
  let sep_temp := sep_temp * 9 / 5 + 32 in
  if decide (method = "API") then
    if decide (oil_api_60f > 35) then
      _vasquez_beggs sg_gas sep_p oil_api_60f sep_temp vb_c1 vb_c2 vb_c3
    else if decide (25 <= oil_api_60f <= 35) then
      _standings sg_gas sep_p oil_api_60f sep_temp
    else
      _katz sg_gas sep_p oil_api_60f sep_temp
  else if decide (method = "VASQUEZ_BEGGS") then
    let sep_p := sep_p + 14.7 in
    let sep_temp := sep_temp * 9 / 5 + 32 in
    if decide (oil_api_60f <= 30) then
      _vasquez_beggs sg_gas sep_p oil_api_60f sep_temp 0.0362 1.0937 25.724
    else
      _vasquez_beggs sg_gas sep_p oil_api_60f sep_temp 0.0178 1.1870 23.931
  else if decide (method = "STANDINGS") then
    _standings sg_gas sep_p oil_api_60f sep_temp
  else if decide (method = "KATZ") then
    _katz sg_gas sep_p oil_api_60f sep_temp
  else Fl 0.

(* Any complex intermediate value stays complex up to [math.sqrt(z)], which
   rejects it: inside this function a complex power counts as a fault. *)
Definition calculate_fpv (sg_gas p t h2s co2 : R) : R :=
  try_except
    (let y_h2s := h2s / 1000000 in
     let y_co2 := co2 / 1000000 in
     let tpc := 168 + (325 * sg_gas) - (12.5 * (sg_gas ^ 2)) in
     let ppc := 677 + (15 * sg_gas) - (37.5 * (sg_gas ^ 2)) in
     let a := y_h2s + y_co2 in
     a09 ← real_pow a 0.9;
     a16 ← real_pow a 1.6;
     h05 ← real_pow y_h2s 0.5;
     let epsilon := 120 * (a09 - a16) + 15 * (h05 - y_h2s ^ 4) in
     let tpc_corr := tpc - epsilon in
     ppc_corr ← fdiv (ppc * tpc_corr) (tpc + y_h2s * (1 - y_h2s) * epsilon);
     tpr ← fdiv (t + 460) tpc_corr;
     ppr ← fdiv p ppc_corr;
     z1 ← fdiv (3.52 * ppr) (Rpower 10 (0.9813 * tpr));
     z2 ← fdiv (0.274 * (ppr ^ 2)) (Rpower 10 (0.8157 * tpr));
     let z := 1 - z1 + z2 in
     s ← math_sqrt z;
     fdiv 1 s)
    1.

(** The expansion factor [y2] of the orifice equation. *)
Definition expansion_factor (beta delta_p_psi p1 : R) : option R :=
  q ← fdiv ((0.41 + 0.35 * beta ^ 4) * delta_p_psi) (1.28 * p1);
  Some (1 - q).

Definition gas_flow_body
    (hw sep_p gas_t sg_gas orifice_d line_bore h2s co2 : R) : option num :=
  beta ← fdiv orifice_d line_bore;
  b21 ← float_pow beta 2.1;
  let cd := nsub (nadd (Fl 0.5959) (nmul (Fl 0.0312) b21)) (Fl (0.1840 * (beta ^ 8))) in
  r1 ← math_sqrt (1 - beta ^ 4);
  fb ← ndiv (nmul (Fl (338.17 * (orifice_d ^ 2))) cd) r1;
  rg ← math_sqrt sg_gas;
  fg ← fdiv 1 rg;
  let pf := sep_p + 14.7 in
  let delta_p_psi := hw * 0.03613 in
  let p1 := pf + delta_p_psi in
  y2 ← expansion_factor beta delta_p_psi p1;
  qt ← fdiv 520 (gas_t + 460);
  ftf ← math_sqrt qt;
  let fpv := calculate_fpv sg_gas p1 gas_t h2s co2 in
  rq ← math_sqrt (hw * pf);
  ndiv
    (nmul (nmul (nmul (nmul (nmul (nmul (Fl 24) fb) (Fl fg)) (Fl y2)) (Fl ftf))
             (Fl fpv)) (Fl rq))
    1000.

Definition calculate_gas_flow
    (hw sep_p gas_t sg_gas orifice_d line_bore h2s co2 : R) : num :=
  try_except
    (gas_flow_body hw sep_p gas_t sg_gas orifice_d line_bore h2s co2)
    (Fl 0).

Definition calculate_three_phase_flow
    (vs_oil vs_water wio meter_factor sf vcf_sep : R) : R * R :=
  let q_oil := vs_oil * (1 - wio) * meter_factor * sf * vcf_sep * 48 in
  let q_water := ((vs_water * meter_factor) + (vs_oil * wio)) * 48 in
  (q_oil, q_water).

Definition calculate_two_phase_flow
    (vs_liquid bsw meter_factor sf vcf_sep : R) : R * R :=
  let q_oil := vs_liquid * (1 - bsw) * meter_factor * sf * vcf_sep * 48 in
  let q_water := vs_liquid * meter_factor * bsw * 48 in
  (q_oil, q_water).

Definition gas_lift_body
    (q_gas : num) (q_gas_inj q_oil : R) (gor2 : num) : option (R * num * num) :=
  d ← as_float (nsub q_gas (Fl q_gas_inj));
  let formation_q_gas := py_max d 0 in
  gor1_formation ← guarded_ratio (Fl formation_q_gas) q_oil;
  let total_gor_formation := nadd gor1_formation gor2 in
  Some (formation_q_gas, gor1_formation, total_gor_formation).

Definition calculate_for_gas_lift
    (q_gas : num) (q_gas_inj q_oil : R) (gor2 : num) : R * num * num :=
  try_except (gas_lift_body q_gas q_gas_inj q_oil gor2) (0, Fl 0, Fl 0).

End WellTestCalculator.

Import WellTestCalculator.

(** ** The time-series pipeline *)

Module RamWareApp.

(** The entries of [current_project["parameters"]] the calculations read. *)
Record Params : Type := {
  oil_api : R;
  oil_temp : R;
  meter_factor : R;
  production_type : string;
  separation_type : string;
  gor2_method : string;
  line_bore : R;
  h2s : R;
  co2 : R;
  orifice_diameter : R;
  sg_gas : R
}.

(** One row of [current_project["time_series"]].  The keys read with
    [entry[...]] are fields; the keys read with [entry.get(..., 0)] may be
    missing. *)
Record Entry : Type := {
  Time : string;
  SEP_P : option R;
  GAS_T : option R;
  Oil_T : option R;
  Meter_Oil : option R;
  Meter_Water : option R;
  WIO : option R;
  Meter_Liquid : option R;
  BSW : option R;
  GAS_DP : R;
  Q_Gas_Inj : option R
}.

(** [entry.get(key, 0)]. *)
Definition get (field : option R) (dflt : R) : R := default dflt field.

(** The values carried from one iteration of the loop to the next. *)
Record Meters : Type := {
  prev_meter_oil : R;
  prev_meter_water : R;
  prev_meter_liquid : R
}.

Definition initial_meters : Meters :=
  {| prev_meter_oil := 0; prev_meter_water := 0; prev_meter_liquid := 0 |}.

(** The locals bound by the first [if] on the separation type; the second
    [if], on the same test, reads the ones its branch bound. *)
Inductive Volumes : Type :=
  | ThreePhases (vs_oil vs_water wio : R)
  | TwoPhases (vs_liquid bsw : R).

Definition volume_differences
    (params : Params) (prev : Meters) (entry : Entry) : Meters * Volumes :=
  if decide (separation_type params = "THREE PHASES") then
    let meter_oil := get (Meter_Oil entry) 0 in
    let meter_water := get (Meter_Water entry) 0 in
    let vs_oil := meter_oil - prev_meter_oil prev in
    let vs_water := meter_water - prev_meter_water prev in
    let wio := get (WIO entry) 0 / 100 in
    ({| prev_meter_oil := meter_oil;
        prev_meter_water := meter_water;
        prev_meter_liquid := prev_meter_liquid prev |},
     ThreePhases vs_oil vs_water wio)
  else
    let meter_liquid := get (Meter_Liquid entry) 0 in
    let vs_liquid := meter_liquid - prev_meter_liquid prev in
    let bsw := get (BSW entry) 0 / 100 in
    ({| prev_meter_oil := prev_meter_oil prev;
        prev_meter_water := prev_meter_water prev;
        prev_meter_liquid := meter_liquid |},
     TwoPhases vs_liquid bsw).

(** [oil_api_60f], as the loop body calls it. *)
Definition entry_oil_api_60f (params : Params) : R :=
  calculate_oil_api_60f (oil_temp params) (oil_api params).

Definition entry_sep_temp (entry : Entry) : R := get (Oil_T entry) 0.
Definition entry_sep_p (entry : Entry) : R := get (SEP_P entry) 0.

Definition entry_vcf_sep (params : Params) (entry : Entry) : R :=
  calculate_vcf_sep (entry_sep_temp entry) (entry_oil_api_60f params).

Definition entry_gor2 (params : Params) (entry : Entry) : num :=
  calculate_gor2 (entry_oil_api_60f params) (sg_gas params)
    (entry_sep_p entry) (entry_sep_temp entry) (gor2_method params).

Definition entry_sf (params : Params) (entry : Entry) : R :=
  calculate_shrinkage_factor (entry_gor2 params entry) (entry_sep_p entry)
    (entry_oil_api_60f params).

Definition entry_liquid_rates
    (params : Params) (vols : Volumes) (entry : Entry) : R * R :=
  match vols with
  | ThreePhases vs_oil vs_water wio =>
      calculate_three_phase_flow vs_oil vs_water wio
        (meter_factor params) (entry_sf params entry) (entry_vcf_sep params entry)
  | TwoPhases vs_liquid bsw =>
      calculate_two_phase_flow vs_liquid bsw
        (meter_factor params) (entry_sf params entry) (entry_vcf_sep params entry)
  end.

Definition entry_q_gas (params : Params) (entry : Entry) : num :=
  calculate_gas_flow (GAS_DP entry) (entry_sep_p entry) (get (GAS_T entry) 0)
    (sg_gas params) (orifice_diameter params) (line_bore params)
    (h2s params) (co2 params).

(** The values of a result dict: the time label or a number. *)
Inductive pyval : Type :=
  | PStr (s : string)
  | PNum (n : num).

(** The body of the loop: the carried meters after the entry and the result
    dict appended for it.  [None] is an exception leaving the method. *)
Definition process_entry
    (params : Params) (prev : Meters) (entry : Entry)
    : option (Meters * gmap string pyval) :=
  let result : gmap string pyval := {[ "Time" := PStr (Time entry) ]} in
  let '(prev, vols) := volume_differences params prev entry in
  let gor2 := entry_gor2 params entry in
  let '(q_oil, q_water) := entry_liquid_rates params vols entry in
  let result := <[ "Q Oil" := PNum (Fl q_oil) ]> result in
  let result := <[ "Q Water" := PNum (Fl q_water) ]> result in
  let result := <[ "Total Q" := PNum (Fl (q_oil + q_water)) ]> result in
  let q_gas := entry_q_gas params entry in
  let result := <[ "Q Gas" := PNum q_gas ]> result in
  gor1 ← guarded_ratio q_gas q_oil;
  let result := <[ "GOR1" := PNum gor1 ]> result in
  let result := <[ "GOR2" := PNum gor2 ]> result in
  let result := <[ "Total GOR" := PNum (nadd gor1 gor2) ]> result in
  let result :=
    if decide (production_type params = "GAS LIFT") then
      let q_gas_inj := get (Q_Gas_Inj entry) 0 in
      let result := <[ "Q Gas Inj" := PNum (Fl q_gas_inj) ]> result in
      let '(formation_gas, gor1_formation, total_gor_formation) :=
        calculate_for_gas_lift q_gas q_gas_inj q_oil gor2 in
      let result := <[ "Formation Gas" := PNum (Fl formation_gas) ]> result in
      let result := <[ "GOR1 Formation" := PNum gor1_formation ]> result in
      <[ "Total GOR Formation" := PNum total_gor_formation ]> result
    else result in
  Some (prev, result).

(** The loop over the time series, from given carried meters. *)
Fixpoint process_entries
    (params : Params) (prev : Meters) (time_series : list Entry)
    : option (list (gmap string pyval)) :=
  match time_series with
  | [] => Some []
  | entry :: rest =>
      '(prev, result) ← process_entry params prev entry;
      results ← process_entries params prev rest;
      Some (result :: results)
  end.

(** The carried meters when the loop reaches entry [i]. *)
Definition meters_before
    (params : Params) (time_series : list Entry) (i : nat) : Meters :=
  foldl (fun prev entry => fst (volume_differences params prev entry))
    initial_meters (take i time_series).

(** The part of [self.current_project] the two methods read and write. *)
Record Project : Type := {
  parameters : Params;
  time_series : list Entry;
  results : list (gmap string pyval);
  averages : gmap string num
}.

(** [sum(values)], which starts from [0] and rejects a string. *)
Fixpoint py_sum_from (acc : num) (values : list pyval) : option num :=
  match values with
  | [] => Some acc
  | PNum n :: rest => py_sum_from (nadd acc n) rest
  | PStr _ :: _ => None
  end.

Definition py_sum (values : list pyval) : option num :=
  py_sum_from (Fl 0) values.

(** The loop over [results[0].keys()]; [r[key]] raises [KeyError] on a
    result without the key. *)
Fixpoint averages_loop
    (keys : list string) (results : list (gmap string pyval))
    (averages : gmap string num) : option (gmap string num) :=
  match keys with
  | [] => Some averages
  | key :: rest =>
      if decide (key <> "Time") then
        values ← mapM (fun r : gmap string pyval => r !! key) results;
        total ← py_sum values;
        mean ← ndiv total (INR (length values));
        averages_loop rest results (<[ key := mean ]> averages)
      else averages_loop rest results averages
  end.

(* The mapping is assigned after the loop, so the order in which the keys
   are visited does not show in the outcome. *)
Definition calculate_averages (project : Project) : option Project :=
  match results project with
  | [] => Some project
  | first :: _ =>
      averages ← averages_loop (map_to_list first).*1 (results project) ∅;
      Some {| parameters := parameters project;
              time_series := time_series project;
              results := results project;
              averages := averages |}
  end.

(** [None] is an exception leaving the method. *)
Definition perform_calculations (project : Project) : option Project :=
  results ←
    process_entries (parameters project) initial_meters (time_series project);
  calculate_averages
    {| parameters := parameters project;
       time_series := time_series project;
       results := results;
       averages := averages project |}.

End RamWareApp.

Import RamWareApp.

(** ** The formulas of the specification *)

Module Spec.

Definition celsius_to_fahrenheit (c : R) : R := c * 9 / 5 + 32.

Definition gauge_to_absolute_psia (psig : R) : R := psig + 14.7.

(** The coefficient of the shrinkage factor: the tier of the API gravity,
    overridden at low GOR or low separator pressure. *)
Definition api_tier_coefficient (api60 c : R) : Prop :=
  (api60 > 35 -> c = 0.00000025) /\
  (25 <= api60 <= 35 -> c = 0.0000003) /\
  (api60 < 25 -> c = 0.00000035).

Definition shrinkage_coefficient (gor2 sepPsig api60 c : R) : Prop :=
  (gor2 < 100 /\ sepPsig < 50 -> c = 0.00000005) /\
  (gor2 < 100 /\ ~ sepPsig < 50 -> c = 0.0000001) /\
  (~ gor2 < 100 /\ sepPsig < 50 -> c = 0.0000002) /\
  (~ gor2 < 100 /\ ~ sepPsig < 50 -> api_tier_coefficient api60 c).

(** Standing's correlation on the separator pressure made absolute once. *)
Definition standing (api60 sgGas sepPsig sepTempC : R) : R :=
  let pAbs := gauge_to_absolute_psia sepPsig in
  let tempF := celsius_to_fahrenheit sepTempC in
  let e := 0.0125 * api60 - 0.00091 * tempF in
  sgGas * Rpower ((pAbs * Rpower 10 e) / 18.2) 1.204.

(** The volume correction factor. *)
Definition vcf_alpha (api60 : R) : R := 0.00034878 - 0.00000091 * api60.

Definition vcf_delta_t (sepTempC : R) : R := celsius_to_fahrenheit sepTempC - 60.

Definition volume_correction_factor (sepTempC api60 : R) : R :=
  let dt := vcf_delta_t sepTempC in
  exp (- (vcf_alpha api60 * dt + 0.0000000025 * (dt * dt))).

(** The unweighted arithmetic mean. *)
Definition arithmetic_mean (values : list num) : num :=
  nquot (foldr nadd (Fl 0) values) (INR (length values)).

(** The values of field [key], one per result. *)
Definition field_values
    (results : list (gmap string pyval)) (key : string) (values : list num)
    : Prop :=
  Forall2 (fun (r : gmap string pyval) n => r !! key = Some (PNum n))
    results values.

End Spec.

(** ** Sample inputs *)

Module Samples.

(** A two-phase natural-flow test of a 30 degree API oil observed at
    15 degrees Celsius. *)
Definition two_phase_params : Params :=
  {| oil_api := 30; oil_temp := 15; meter_factor := 1;
     production_type := "NATURAL FLOW"; separation_type := "TWO PHASES";
     gor2_method := "API"; line_bore := 4; h2s := 0; co2 := 0;
     orifice_diameter := 2; sg_gas := 0.65 |}.

Definition gas_lift_params : Params :=
  {| oil_api := 30; oil_temp := 15; meter_factor := 1;
     production_type := "GAS LIFT"; separation_type := "THREE PHASES";
     gor2_method := "API"; line_bore := 4; h2s := 0; co2 := 0;
     orifice_diameter := 2; sg_gas := 0.65 |}.

Definition liquid_entry (time : string) (meter_liquid : R) : Entry :=
  {| Time := time; SEP_P := Some 100; GAS_T := Some 25; Oil_T := Some 20;
     Meter_Oil := None; Meter_Water := None; WIO := None;
     Meter_Liquid := Some meter_liquid; BSW := Some 10;
     GAS_DP := 50; Q_Gas_Inj := None |}.

Definition oil_water_entry (time : string) (meter_oil meter_water : R) : Entry :=
  {| Time := time; SEP_P := Some 100; GAS_T := Some 25; Oil_T := Some 20;
     Meter_Oil := Some meter_oil; Meter_Water := Some meter_water;
     WIO := Some 2; Meter_Liquid := None; BSW := None;
     GAS_DP := 50; Q_Gas_Inj := Some 800 |}.

(** A liquid meter that reads 50 barrels and then 30. *)
Definition decreasing_series : list Entry :=
  [liquid_entry "00:00" 50; liquid_entry "00:30" 30].

Definition oil_rate_result (time : string) (q_oil : R) : gmap string pyval :=
  <[ "Q Oil" := PNum (Fl q_oil) ]> {[ "Time" := PStr time ]}.

(** Two results whose oil rates are 100 and 200. *)
Definition two_results_project : Project :=
  {| parameters := two_phase_params;
     time_series := [];
     results := [oil_rate_result "00:00" 100; oil_rate_result "00:30" 200];
     averages := ∅ |}.

(** No results, and the averages an earlier calculation stored. *)
Definition stale_project : Project :=
  {| parameters := two_phase_params;
     time_series := [];
     results := [];
     averages := {[ "Q Oil" := Fl 150 ]} |}.

End Samples.

(** ** The columns of the data-entry table *)

Module DataEntryPage.

(** The local [columns] of [setup_table]: the headers of the table, which
    [calculate_results] uses as the keys of every entry. *)
Definition columns (separation_type production_type : string) : list string :=
  let columns :=
    ["Time"; "Choke"; "WHP (PSIG)"; "WHT (°C)"; "Casing (PSIG)";
     "SEP P (PSIG)"; "GAS T (°C)"; "Oil Outlet P (PSIG)"; "Oil T (°C)"] in
  let columns :=
    if decide (separation_type = "THREE PHASES")
    then columns ++ ["Meter Oil (BBL)"; "Meter Water (BBL)"; "WIO (%)"]
    else columns ++ ["Meter Liquid (BBL)"; "BSW (%)"] in
  let columns := columns ++ ["GAS DP (inH₂O)"] in
  if decide (production_type = "GAS LIFT")
  then columns ++ ["Q Gas Inj (MSCF/D)"]
  else columns.

(** The local [start_col]: the column whose cells are set to "0.0". *)
Definition start_col (separation_type : string) : nat :=
  if decide (separation_type = "THREE PHASES") then 9%nat else 8%nat.

(** The keys [perform_calculations] looks up in an entry, by [entry[...]] or
    by [entry.get(..., 0)]. *)
Definition keys_read (separation_type production_type : string) : list string :=
  (if decide (separation_type = "THREE PHASES")
   then ["Time"; "Meter Oil (BBL)"; "Meter Water (BBL)"; "WIO (%)"]
   else ["Time"; "Meter Liquid (BBL)"; "BSW (%)"])
  ++ ["Oil T (°C)"; "SEP P (PSIG)"; "GAS T (°C)"; "GAS DP (inH₂O)"]
  ++ (if decide (production_type = "GAS LIFT")
      then ["Q Gas Inj (MSCF/D)"]
      else []).

End DataEntryPage.

(** ** The volumes of a whole series *)

Module Series.



(** The cumulative reading that volume is differenced from. *)
Definition metered_reading (params : Params) (entry : Entry) : R :=
  if decide (separation_type params = "THREE PHASES")
  then get (Meter_Oil entry) 0
  else get (Meter_Liquid entry) 0.


(** A parameter set with the GOR2 method as the parameters page writes it
    for its third combo-box item. *)
Definition combo_box_params : Params :=
  {| oil_api := 30; oil_temp := 15; meter_factor := 1;
     production_type := "NATURAL FLOW"; separation_type := "TWO PHASES";
     gor2_method := "VASQUEZ BEGGS"; line_bore := 4; h2s := 0; co2 := 0;
     orifice_diameter := 2; sg_gas := 0.65 |}.


(** Two results of which the second has lost its oil rate. *)
Definition ragged_project : Project :=
  {| parameters := Samples.two_phase_params;
     time_series := [];
     results := [Samples.oil_rate_result "00:00" 100;
                 {[ "Time" := PStr "00:30" ]}];
     averages := {[ "Q Oil" := Fl 150 ]} |}.

(** A liquid meter that stays at 50 barrels. *)
Definition stalled_series : list Entry :=
  [Samples.liquid_entry "00:00" 50; Samples.liquid_entry "00:30" 50].

End Series.

(** One step of a chain of binds whose head has been rewritten to [Some]. *)
Ltac bind_step := cbn [mbind option_bind].

(** * Properties *)

(** ** Python numbers *)

Lemma float_pow_pos (x y : R) :
  0 < x -> float_pow x y = Some (Fl (Rpower x y)).
Proof. intros Hx. unfold float_pow. now rewrite decide_True. Qed.

Lemma fdiv_nonzero (a d : R) : d <> 0 -> fdiv a d = Some (a / d).
Proof. intros Hd. unfold fdiv. now rewrite decide_False. Qed.

Lemma ndiv_nonzero (a : num) (d : R) : d <> 0 -> ndiv a d = Some (nquot a d).
Proof. intros Hd. unfold ndiv. now rewrite decide_False. Qed.

Lemma math_sqrt_nonneg (x : R) : 0 <= x -> math_sqrt x = Some (sqrt x).
Proof. intros Hx. unfold math_sqrt. rewrite decide_False; [done | lra]. Qed.

Lemma py_max_Rmax (a b : R) : py_max a b = Rmax a b.
Proof.
  unfold py_max, Rmax.
  destruct (decide (b > a)), (Rle_dec a b); lra.
Qed.

(** The guard of the ratio keeps the division away from zero. *)
Lemma guarded_ratio_total (gas : num) (q_oil : R) :
  guarded_ratio gas q_oil =
  Some (if decide (q_oil > 0) then nquot (nmul gas (Fl 1000)) q_oil else Fl 0).
Proof.
  unfold guarded_ratio. destruct (decide (q_oil > 0)); [|done].
  apply ndiv_nonzero. lra.
Qed.

Lemma nadd_assoc (a b c : num) : nadd a (nadd b c) = nadd (nadd a b) c.
Proof. destruct a, b, c; simpl; try done. f_equal. lra. Qed.

Lemma nadd_0_l (a : num) : nadd (Fl 0) a = a.
Proof. destruct a; simpl; try done. f_equal. lra. Qed.

Lemma nadd_0_r (a : num) : nadd a (Fl 0) = a.
Proof. destruct a; simpl; try done. f_equal. lra. Qed.

(** ** The PVT correlations *)

Import Spec Samples.

(** C1: the API gravity at 60 degrees F that the loop feeds into the VCF,
    GOR2 and shrinkage steps should be [calculate_oil_api_60f] of the
    observed API gravity and the observed temperature, in that order.  The
    call site passes the temperature first: for a 30 degree API oil observed
    at 15 degrees Celsius (59 degrees F, no correction due) the loop works
    with 14.9545 and not with 30. *)
Theorem oil_api_60f_call_swaps_arguments :
  entry_oil_api_60f two_phase_params = 14.9545 /\
  calculate_oil_api_60f (oil_api two_phase_params) (oil_temp two_phase_params) = 30 /\
  entry_oil_api_60f two_phase_params <>
    calculate_oil_api_60f (oil_api two_phase_params) (oil_temp two_phase_params).
Proof.
  assert (H1 : entry_oil_api_60f two_phase_params = 14.9545).
  { unfold entry_oil_api_60f, calculate_oil_api_60f; simpl.
    rewrite decide_False; lra. }
  assert (H2 : calculate_oil_api_60f (oil_api two_phase_params)
                 (oil_temp two_phase_params) = 30).
  { unfold calculate_oil_api_60f; simpl. rewrite decide_True; lra. }
  split; [exact H1 | split; [exact H2 |]].
  rewrite H1, H2. lra.
Qed.

(** C4: on a float GOR2 the shrinkage factor is [1 - c * gor2 * sep_p] for
    the coefficient [c] the specification selects: the combined low-GOR and
    low-pressure override first, then each single override, then the API
    tier.  At API 40, GOR2 50 and 30 psig the combined override 5e-8 wins. *)
Theorem shrinkage_factor_coefficient (gor2 sep_p oil_api_60f : R) :
  (exists c : R,
     shrinkage_coefficient gor2 sep_p oil_api_60f c /\
     calculate_shrinkage_factor (Fl gor2) sep_p oil_api_60f
       = 1 - c * gor2 * sep_p) /\
  calculate_shrinkage_factor (Fl 50) 30 40 = 1 - 0.00000005 * 50 * 30.
Proof.
  split.
  - unfold calculate_shrinkage_factor, try_except; simpl.
    unfold shrinkage_coefficient, api_tier_coefficient.
    destruct (decide (gor2 < 100 /\ sep_p < 50)) as [[Hg Hp]|Hgp].
    { eexists; split; [|reflexivity]. repeat split; intros; lra. }
    destruct (decide (gor2 < 100)) as [Hg|Hg].
    { eexists; split; [|reflexivity].
      repeat split; intros; try lra; tauto. }
    destruct (decide (sep_p < 50)) as [Hp|Hp].
    { eexists; split; [|reflexivity]. repeat split; intros; lra. }
    destruct (decide (oil_api_60f > 35)) as [Ha|Ha].
    { eexists; split; [|reflexivity]. repeat split; intros; lra. }
    destruct (decide (25 <= oil_api_60f <= 35)) as [Hb|Hb].
    { eexists; split; [|reflexivity]. repeat split; intros; lra. }
    eexists; split; [|reflexivity]. repeat split; intros; lra.
  - unfold calculate_shrinkage_factor, try_except; simpl.
    rewrite decide_True; [reflexivity | lra].
Qed.

(** C9: the volume correction factor is [exp (-(alpha * dt + beta * dt^2))]
    with [dt] the separator temperature in degrees F minus 60,
    [alpha = 0.00034878 - 0.00000091 * api60] and [beta = 2.5e-9]; it is
    exactly 1 when the temperature converts to 60 degrees F, and it lies in
    (0, 1] whenever [dt >= 0] and [alpha > 0]. *)
Theorem vcf_sep_formula_and_range (sep_temp oil_api_60f : R) :
  calculate_vcf_sep sep_temp oil_api_60f
    = volume_correction_factor sep_temp oil_api_60f /\
  (celsius_to_fahrenheit sep_temp = 60 ->
   calculate_vcf_sep sep_temp oil_api_60f = 1) /\
  (0 <= vcf_delta_t sep_temp -> 0 < vcf_alpha oil_api_60f ->
   0 < calculate_vcf_sep sep_temp oil_api_60f <= 1).
Proof.
  assert (Heq : calculate_vcf_sep sep_temp oil_api_60f
                = volume_correction_factor sep_temp oil_api_60f).
  { unfold calculate_vcf_sep, volume_correction_factor, vcf_delta_t,
      vcf_alpha, celsius_to_fahrenheit.
    f_equal. simpl. lra. }
  split; [exact Heq | rewrite Heq; split].
  - unfold volume_correction_factor, vcf_delta_t. intros ->.
    replace (- _) with 0 by lra. apply exp_0.
  - unfold volume_correction_factor. intros Hdt Halpha.
    set (dt := vcf_delta_t sep_temp) in *.
    split; [apply exp_pos |].
    rewrite <- exp_0.
    destruct (Rle_lt_or_eq_dec 0 dt Hdt) as [Hlt | <-].
    + left. apply exp_increasing. nra.
    + right. f_equal. lra.
Qed.

(** The factor at 140/9 degrees Celsius, which is 60 degrees F, and at 20
    degrees Celsius for a 30 degree API oil. *)
Lemma vcf_sep_formula_and_range_witness :
  calculate_vcf_sep (140 / 9) 30 = 1 /\
  0 < calculate_vcf_sep 20 30 <= 1.
Proof.
  split.
  - apply (vcf_sep_formula_and_range (140 / 9) 30).
    unfold celsius_to_fahrenheit. lra.
  - apply (vcf_sep_formula_and_range 20 30).
    + unfold vcf_delta_t, celsius_to_fahrenheit. lra.
    + unfold vcf_alpha. lra.
Defined.

(** ** The gas-lift figures *)

Lemma gas_lift_body_float (q_gas q_gas_inj q_oil : R) (gor2 : num) :
  gas_lift_body (Fl q_gas) q_gas_inj q_oil gor2 =
  let formation := py_max (q_gas - q_gas_inj) 0 in
  let ratio :=
    if decide (q_oil > 0) then Fl (formation * 1000 / q_oil) else Fl 0 in
  Some (formation, ratio, nadd ratio gor2).
Proof.
  unfold gas_lift_body; simpl.
  rewrite guarded_ratio_total; simpl.
  now destruct (decide (q_oil > 0)).
Qed.

(** C7: under gas lift the formation gas is [max (q_gas - q_gas_inj) 0],
    hence never negative (it is the default 0 when the gas rate is not a
    float); for a gas rate of 500 and 800 injected it is 0, not -300. *)
Theorem formation_gas_is_clamped (q_gas q_gas_inj q_oil : R) (gor2 : num) :
  (calculate_for_gas_lift (Fl q_gas) q_gas_inj q_oil gor2).1.1
    = Rmax (q_gas - q_gas_inj) 0 /\
  0 <= (calculate_for_gas_lift (Fl q_gas) q_gas_inj q_oil gor2).1.1 /\
  (calculate_for_gas_lift Cx q_gas_inj q_oil gor2).1.1 = 0 /\
  (calculate_for_gas_lift (Fl 500) 800 q_oil gor2).1.1 = 0.
Proof.
  unfold calculate_for_gas_lift, try_except.
  rewrite !gas_lift_body_float; simpl.
  rewrite !py_max_Rmax.
  repeat split.
  - apply Rmax_r.
  - unfold Rmax. destruct (Rle_dec _ _); lra.
Qed.

(** ** The orifice equation *)

Lemma nmul_zero_r (a : R) : nmul (Fl a) (Fl 0) = Fl 0.
Proof. simpl. f_equal. lra. Qed.

Lemma expansion_factor_no_differential (beta p1 : R) :
  p1 <> 0 -> expansion_factor beta (0 * 0.03613) p1 = Some 1.
Proof.
  intros Hp. unfold expansion_factor.
  rewrite fdiv_nonzero by lra. simpl. f_equal. field. lra.
Qed.

(** C10: with no differential head, a line bore above zero, an orifice
    strictly inside the bore, a positive gas gravity, a gas temperature above
    -460 and a separator pressure that is not negative, the body of the
    orifice calculation raises nothing, its expansion factor is 1 and the
    gas rate it returns is exactly 0; GOR1 is then 0 for any oil rate. *)
Theorem gas_flow_zero_without_differential
    (sep_p gas_t sg_gas orifice_d line_bore h2s co2 : R) :
  0 < line_bore -> 0 < orifice_d < line_bore -> 0 < sg_gas ->
  -460 < gas_t -> 0 <= sep_p ->
  gas_flow_body 0 sep_p gas_t sg_gas orifice_d line_bore h2s co2
    = Some (Fl 0) /\
  expansion_factor (orifice_d / line_bore) (0 * 0.03613)
    (sep_p + 14.7 + 0 * 0.03613) = Some 1 /\
  calculate_gas_flow 0 sep_p gas_t sg_gas orifice_d line_bore h2s co2 = Fl 0 /\
  forall q_oil : R,
    guarded_ratio
      (calculate_gas_flow 0 sep_p gas_t sg_gas orifice_d line_bore h2s co2)
      q_oil = Some (Fl 0).
Proof.
  intros Hbore [Hd0 Hd1] Hsg Ht Hp.
  set (beta := orifice_d / line_bore).
  assert (Hbeta : 0 < beta < 1).
  { unfold beta. split.
    - now apply Rdiv_lt_0_compat.
    - apply (Rmult_lt_reg_r line_bore); [exact Hbore |].
      unfold Rdiv. rewrite Rmult_assoc, Rinv_l by lra. lra. }
  assert (Hb4 : 0 < 1 - beta ^ 4).
  { assert (beta ^ 4 < 1); [| lra].
    replace (beta ^ 4) with ((beta * beta) * (beta * beta)) by ring.
    assert (0 < beta * beta < 1) by nra. nra. }
  assert (Hy2 : expansion_factor beta (0 * 0.03613)
                  (sep_p + 14.7 + 0 * 0.03613) = Some 1).
  { apply expansion_factor_no_differential. lra. }
  assert (Hbody : gas_flow_body 0 sep_p gas_t sg_gas orifice_d line_bore h2s co2
                  = Some (Fl 0)).
  { unfold gas_flow_body.
    rewrite (fdiv_nonzero orifice_d line_bore) by lra.
    fold beta. bind_step.
    rewrite (float_pow_pos beta) by apply Hbeta. bind_step.
    rewrite (math_sqrt_nonneg (1 - beta ^ 4)) by lra. bind_step.
    rewrite ndiv_nonzero by (apply Rgt_not_eq, sqrt_lt_R0; exact Hb4).
    bind_step.
    rewrite (math_sqrt_nonneg sg_gas) by lra. bind_step.
    rewrite (fdiv_nonzero 1) by (apply Rgt_not_eq, sqrt_lt_R0; exact Hsg).
    bind_step.
    rewrite Hy2. bind_step.
    rewrite (fdiv_nonzero 520) by lra. bind_step.
    rewrite (math_sqrt_nonneg (520 / (gas_t + 460)))
      by (apply Rlt_le, Rdiv_lt_0_compat; lra).
    bind_step.
    replace (0 * (sep_p + 14.7)) with 0 by lra.
    rewrite (math_sqrt_nonneg 0), sqrt_0 by lra. bind_step.
    rewrite ndiv_nonzero by lra.
    cbn [nmul nsub nadd lift2 nquot].
    do 2 f_equal. lra. }
  assert (Hflow : calculate_gas_flow 0 sep_p gas_t sg_gas orifice_d line_bore
                    h2s co2 = Fl 0).
  { unfold calculate_gas_flow. now rewrite Hbody. }
  repeat split; [exact Hbody | exact Hy2 | exact Hflow |].
  intros q_oil. rewrite Hflow, guarded_ratio_total.
  destruct (decide (q_oil > 0)); [| done].
  simpl. do 2 f_equal. lra.
Qed.

(** A 2 inch orifice in a 4 inch line at 100 psig and 25 degrees. *)
Lemma gas_flow_zero_without_differential_witness :
  calculate_gas_flow 0 100 25 0.65 2 4 0 0 = Fl 0.
Proof.
  apply (gas_flow_zero_without_differential 100 25 0.65 2 4 0 0); lra.
Defined.

(** ** The GOR2 correlations *)

Lemma vasquez_beggs_float (sg_gas sep_p oil_api_60f sep_temp c1 c2 c3 : R) :
  0 < sep_p + 14.7 -> sep_temp * 9 / 5 + 32 + 460 <> 0 ->
  _vasquez_beggs sg_gas sep_p oil_api_60f sep_temp c1 c2 c3 =
  Fl (sg_gas * c1 * Rpower (sep_p + 14.7) c2
      * exp (c3 * oil_api_60f / (sep_temp * 9 / 5 + 32 + 460))).
Proof.
  intros Hp Ht. unfold _vasquez_beggs, try_except.
  rewrite float_pow_pos by exact Hp. bind_step.
  rewrite fdiv_nonzero by exact Ht. reflexivity.
Qed.

Lemma standings_float (sg_gas sep_p oil_api_60f sep_temp : R) :
  0 < sep_p + 14.7 ->
  _standings sg_gas sep_p oil_api_60f sep_temp =
  Fl (sg_gas
      * Rpower (((sep_p + 14.7)
                 * Rpower 10 (0.0125 * oil_api_60f - 0.00091 * sep_temp))
                / 18.2) 1.204).
Proof.
  intros Hp. unfold _standings, try_except.
  rewrite float_pow_pos; [reflexivity |].
  apply Rdiv_lt_0_compat; [| lra].
  apply Rmult_lt_0_compat; [exact Hp | apply exp_pos].
Qed.

(** The STANDINGS method evaluates Standing's correlation, which makes its
    pressure absolute, on a pressure that is absolute already. *)
Lemma gor2_standings_pressure (oil_api_60f sg_gas sep_p sep_temp : R) :
  0 < sep_p + 14.7 + 14.7 ->
  calculate_gor2 oil_api_60f sg_gas sep_p sep_temp "STANDINGS"
    = Fl (standing oil_api_60f sg_gas (sep_p + 14.7) sep_temp).
Proof.
  intros Hp. unfold calculate_gor2.
  rewrite (decide_False (P := "STANDINGS" = "API")) by done.
  rewrite (decide_False (P := "STANDINGS" = "VASQUEZ_BEGGS")) by done.
  rewrite (decide_True (P := "STANDINGS" = "STANDINGS")) by done.
  rewrite standings_float by exact Hp. reflexivity.
Qed.

(** What the two calls compute at API 40, gravity 0.65, 100 psig and 20
    degrees Celsius: the automatic choice works at 129.4 psia and 154.4
    degrees, the explicit one at 144.1 psia and 309.92 degrees. *)
Lemma gor2_automatic_at_40 :
  calculate_gor2 40 0.65 100 20 "API" =
  Fl (0.65 * 0.0178 * Rpower 129.4 1.1870 * exp (23.931 * 40 / 614.4)).
Proof.
  unfold calculate_gor2.
  rewrite (decide_True (P := "API" = "API")) by done.
  rewrite decide_True by lra.
  rewrite vasquez_beggs_float by lra.
  unfold vb_c1, vb_c2, vb_c3.
  do 2 f_equal; [do 2 f_equal; lra | f_equal; lra].
Qed.

Lemma gor2_vasquez_beggs_at_40 :
  calculate_gor2 40 0.65 100 20 "VASQUEZ_BEGGS" =
  Fl (0.65 * 0.0178 * Rpower 144.1 1.1870 * exp (23.931 * 40 / 769.92)).
Proof.
  unfold calculate_gor2.
  rewrite (decide_False (P := "VASQUEZ_BEGGS" = "API")) by done.
  rewrite (decide_True (P := "VASQUEZ_BEGGS" = "VASQUEZ_BEGGS")) by done.
  rewrite decide_False by lra.
  rewrite vasquez_beggs_float by lra.
  do 2 f_equal; [do 2 f_equal; lra | f_equal; lra].
Qed.

(** C2: for an API gravity above 35 the automatic method should return what
    the explicit Vasquez-Beggs method returns.  The explicit branch converts
    the pressure and the temperature once more than the automatic one, and
    at API 40, gravity 0.65, 100 psig and 20 degrees Celsius the two calls
    give different values. *)
Theorem gor2_automatic_differs_from_vasquez_beggs :
  calculate_gor2 40 0.65 100 20 "API"
    <> calculate_gor2 40 0.65 100 20 "VASQUEZ_BEGGS".
Proof.
  rewrite gor2_automatic_at_40, gor2_vasquez_beggs_at_40.
  intros Heq. injection Heq as Heq.
  set (r := 144.1 / 129.4).
  assert (Hr : 1 < r) by (unfold r; lra).
  assert (Hp1 : 0 < Rpower 129.4 1.1870) by apply exp_pos.
  assert (He2 : 0 < exp (23.931 * 40 / 769.92)) by apply exp_pos.
  assert (Hpow : Rpower 144.1 1.1870 = Rpower 129.4 1.1870 * Rpower r 1.1870).
  { rewrite Rpower_mult_distr by (unfold r; lra).
    f_equal. unfold r. lra. }
  assert (Hrp : Rpower r 1.1870 < 1.3).
  { apply Rlt_trans with (Rpower r 2).
    - apply Rpower_lt; lra.
    - replace 2 with (INR 2) by (simpl; lra).
      rewrite Rpower_pow by lra. unfold r. simpl. lra. }
  assert (Hexp : exp (23.931 * 40 / 614.4)
                 = exp (23.931 * 40 / 769.92)
                   * exp (23.931 * 40 / 614.4 - 23.931 * 40 / 769.92)).
  { rewrite <- exp_plus. f_equal. lra. }
  assert (Hd : 1.3 < exp (23.931 * 40 / 614.4 - 23.931 * 40 / 769.92)).
  { apply Rlt_trans
      with (1 + (23.931 * 40 / 614.4 - 23.931 * 40 / 769.92)); [lra |].
    apply exp_ineq1. lra. }
  assert (Hrp0 : 0 < Rpower r 1.1870) by apply exp_pos.
  rewrite Hpow, Hexp in Heq.
  set (P1 := Rpower 129.4 1.1870) in *.
  set (E2 := exp (23.931 * 40 / 769.92)) in *.
  set (X := Rpower r 1.1870) in *.
  set (D := exp (23.931 * 40 / 614.4 - 23.931 * 40 / 769.92)) in *.
  assert (HPE : 0 < P1 * E2) by nra.
  assert (Hlt : P1 * E2 * X < P1 * E2 * D) by nra.
  nra.
Qed.

(** C3: with the STANDINGS method the result should be Standing's
    correlation on [sep_p + 14.7].  The helper adds 14.7 to a pressure the
    caller has already made absolute: at API 30, gravity 0.65, 100 psig and
    20 degrees Celsius the correlation is evaluated at 129.4 psia, and the
    result is above the one for 114.7 psia. *)
Theorem gor2_standings_adds_atmosphere_twice :
  calculate_gor2 30 0.65 100 20 "STANDINGS" = Fl (standing 30 0.65 (100 + 14.7) 20) /\
  standing 30 0.65 100 20 < standing 30 0.65 (100 + 14.7) 20 /\
  calculate_gor2 30 0.65 100 20 "STANDINGS" <> Fl (standing 30 0.65 100 20).
Proof.
  assert (Hcode : calculate_gor2 30 0.65 100 20 "STANDINGS"
                  = Fl (standing 30 0.65 (100 + 14.7) 20)).
  { apply gor2_standings_pressure. lra. }
  assert (Hlt : standing 30 0.65 100 20 < standing 30 0.65 (100 + 14.7) 20).
  { unfold standing, gauge_to_absolute_psia, celsius_to_fahrenheit.
    cbv zeta.
    set (e := Rpower 10 _).
    assert (He : 0 < e) by apply exp_pos.
    apply Rmult_lt_compat_l; [lra |].
    apply Rlt_Rpower_l; [lra |].
    split.
    - apply Rdiv_lt_0_compat; nra.
    - unfold Rdiv. apply Rmult_lt_compat_r; nra. }
  split; [exact Hcode | split; [exact Hlt |]].
  rewrite Hcode. intros Heq. injection Heq as Heq. lra.
Qed.

(** ** One iteration of the loop *)

Lemma gas_lift_formation_ratio (q_gas : num) (q_gas_inj q_oil : R) (gor2 : num) :
  (calculate_for_gas_lift q_gas q_gas_inj q_oil gor2).1.2 =
  Fl (if decide (q_oil > 0)
      then (calculate_for_gas_lift q_gas q_gas_inj q_oil gor2).1.1 * 1000 / q_oil
      else 0).
Proof.
  unfold calculate_for_gas_lift, try_except.
  destruct q_gas as [q|].
  - rewrite gas_lift_body_float; simpl.
    now destruct (decide (q_oil > 0)).
  - simpl. destruct (decide (q_oil > 0)); [| done].
    f_equal. unfold Rdiv. ring.
Qed.

(** The iteration raises nothing, and the fields of its result hold the
    values of the locals they are assigned from. *)
Lemma process_entry_result (params : Params) (prev : Meters) (entry : Entry) :
  exists result : gmap string pyval,
    process_entry params prev entry
      = Some ((volume_differences params prev entry).1, result) /\
    let q_oil :=
      (entry_liquid_rates params (volume_differences params prev entry).2 entry).1 in
    let q_gas := entry_q_gas params entry in
    result !! "Q Oil" = Some (PNum (Fl q_oil)) /\
    result !! "Q Gas" = Some (PNum q_gas) /\
    result !! "GOR1"
      = Some (PNum (if decide (q_oil > 0)
                    then nquot (nmul q_gas (Fl 1000)) q_oil else Fl 0)) /\
    (production_type params = "GAS LIFT" ->
     let lift :=
       calculate_for_gas_lift q_gas (get (Q_Gas_Inj entry) 0) q_oil
         (entry_gor2 params entry) in
     result !! "Formation Gas" = Some (PNum (Fl lift.1.1)) /\
     result !! "GOR1 Formation" = Some (PNum lift.1.2)).
Proof.
  unfold process_entry.
  destruct (volume_differences params prev entry) as [prev' vols]; simpl.
  destruct (entry_liquid_rates params vols entry) as [q_oil q_water]; simpl.
  rewrite guarded_ratio_total. bind_step.
  eexists; split; [reflexivity |].
  destruct (decide (production_type params = "GAS LIFT")) as [Hlift | Hlift].
  - destruct (calculate_for_gas_lift _ _ _ _) as [[formation ratio] total].
    repeat split; reflexivity.
  - repeat split; try reflexivity; contradiction.
Qed.

(** C6: every iteration completes, with GOR1 equal to the gas rate times
    1000 over the oil rate when the oil rate is positive and to 0 otherwise,
    and under gas lift with the formation GOR1 equal to the formation gas
    times 1000 over the oil rate when the oil rate is positive and to 0
    otherwise; both are 0 at a zero oil rate, and the guarded division never
    meets a zero denominator. *)
Theorem gor1_division_is_guarded (params : Params) (prev : Meters) (entry : Entry) :
  exists (prev' : Meters) (result : gmap string pyval) (q_oil : R) (q_gas : num),
    process_entry params prev entry = Some (prev', result) /\
    result !! "Q Oil" = Some (PNum (Fl q_oil)) /\
    result !! "Q Gas" = Some (PNum q_gas) /\
    guarded_ratio q_gas q_oil <> None /\
    result !! "GOR1"
      = Some (PNum (if decide (q_oil > 0)
                    then nquot (nmul q_gas (Fl 1000)) q_oil else Fl 0)) /\
    (q_oil = 0 -> result !! "GOR1" = Some (PNum (Fl 0))) /\
    (production_type params = "GAS LIFT" ->
     exists formation_gas : R,
       result !! "Formation Gas" = Some (PNum (Fl formation_gas)) /\
       guarded_ratio (Fl formation_gas) q_oil <> None /\
       result !! "GOR1 Formation"
         = Some (PNum (Fl (if decide (q_oil > 0)
                           then formation_gas * 1000 / q_oil else 0))) /\
       (q_oil = 0 -> result !! "GOR1 Formation" = Some (PNum (Fl 0)))).
Proof.
  destruct (process_entry_result params prev entry)
    as (result & Hrun & Hoil & Hgas & Hgor1 & Hlift).
  cbv zeta in *.
  set (q_oil := (entry_liquid_rates params
                   (volume_differences params prev entry).2 entry).1) in *.
  exists (volume_differences params prev entry).1, result, q_oil,
    (entry_q_gas params entry).
  split; [exact Hrun |]. split; [exact Hoil |]. split; [exact Hgas |].
  split; [now rewrite guarded_ratio_total |].
  split; [exact Hgor1 |].
  split.
  { intros Hz. rewrite Hgor1, decide_False; [done | lra]. }
  intros Htype. destruct (Hlift Htype) as [Hformation Hratio].
  rewrite gas_lift_formation_ratio in Hratio.
  eexists. split; [exact Hformation |].
  split; [now rewrite guarded_ratio_total |].
  split; [exact Hratio |].
  intros Hz. rewrite Hratio, decide_False; [done | lra].
Qed.

(** The first entry of a gas-lift test. *)
Lemma gor1_division_is_guarded_witness :
  exists (result : gmap string pyval) (q_oil formation_gas : R),
    snd <$> process_entry gas_lift_params initial_meters
              (oil_water_entry "00:00" 10 5) = Some result /\
    result !! "Formation Gas" = Some (PNum (Fl formation_gas)) /\
    result !! "GOR1 Formation"
      = Some (PNum (Fl (if decide (q_oil > 0)
                        then formation_gas * 1000 / q_oil else 0))).
Proof.
  destruct (gor1_division_is_guarded gas_lift_params initial_meters
              (oil_water_entry "00:00" 10 5))
    as (prev' & result & q_oil & q_gas & Hrun & _ & _ & _ & _ & _ & Hlift).
  destruct (Hlift eq_refl) as (formation_gas & Hformation & _ & Hratio & _).
  exists result, q_oil, formation_gas.
  rewrite Hrun. repeat split; assumption.
Defined.

(** ** The loop and its carried meters *)

Lemma meters_before_S (params : Params) (ts : list Entry) (i : nat) (entry : Entry) :
  ts !! i = Some entry ->
  meters_before params ts (S i)
    = (volume_differences params (meters_before params ts i) entry).1.
Proof.
  intros Hi. unfold meters_before.
  rewrite (take_S_r _ _ _ Hi), foldl_app. reflexivity.
Qed.

(** The loop runs to its end, and its [i]-th result is the one the body
    builds from the meters carried through the first [i] entries. *)
Lemma process_entries_results (params : Params) (ts : list Entry) :
  forall prev : Meters,
  exists results : list (gmap string pyval),
    process_entries params prev ts = Some results /\
    length results = length ts /\
    forall (i : nat) (entry : Entry),
      ts !! i = Some entry ->
      exists result prev',
        results !! i = Some result /\
        process_entry params
          (foldl (fun prev entry => (volume_differences params prev entry).1)
             prev (take i ts))
          entry = Some (prev', result).
Proof.
  induction ts as [| first rest IH]; intros prev.
  - exists []. repeat split. intros i entry Hi. discriminate.
  - destruct (process_entry_result params prev first) as (r & Hr & _).
    destruct (IH (volume_differences params prev first).1)
      as (rs & Hrs & Hlen & Hnth).
    exists (r :: rs). simpl. rewrite Hr. bind_step. rewrite Hrs. bind_step.
    split; [reflexivity |]. split; [now rewrite Hlen |].
    intros [| i] entry Hi; simpl in Hi.
    + injection Hi as <-. exists r. eexists. split; [reflexivity | exact Hr].
    + destruct (Hnth i entry Hi) as (result & prev' & Hres & Hrun).
      exists result, prev'. split; [exact Hres | exact Hrun].
Qed.

Lemma negative_rate (vs fraction meter_factor sf vcf_sep : R) :
  0 < vcf_sep -> vs < 0 -> 0 < (1 - fraction) * meter_factor * sf ->
  vs * (1 - fraction) * meter_factor * sf * vcf_sep * 48 < 0.
Proof.
  intros Hvcf Hneg Hpos.
  pose proof (Rmult_lt_0_compat _ _ Hpos Hvcf) as Hprod.
  replace (vs * (1 - fraction) * meter_factor * sf * vcf_sep * 48)
    with (vs * ((1 - fraction) * meter_factor * sf * vcf_sep) * 48) by ring.
  nra.
Qed.

(** C5: the loop starts from carried meters that are all 0 and takes the
    entries in order.  At entry [i] the carried value is the reading of entry
    [i - 1] (0 at the first entry), the volume difference is the reading of
    entry [i] minus that carried value, and the reading of entry [i] is
    carried on: oil and water meters for THREE PHASES, the liquid meter
    otherwise.  Whatever the sign of the difference the loop completes, and
    the oil rate stored for entry [i] is the flow formula on that
    difference, so a falling meter gives a negative rate when the other
    factors are positive. *)
Theorem meter_differencing (params : Params) (ts : list Entry) (i : nat) (entry : Entry) :
  ts !! i = Some entry ->
  let prev := meters_before params ts i in
  let next := meters_before params ts (S i) in
  let previous_reading (meter : Entry -> option R) : R :=
    match i with
    | O => 0
    | S j => from_option (fun e => get (meter e) 0) 0 (ts !! j)
    end in
  let sf := entry_sf params entry in
  let vcf_sep := entry_vcf_sep params entry in
  meters_before params ts 0 = initial_meters /\
  exists (results : list (gmap string pyval)) (result : gmap string pyval),
    process_entries params initial_meters ts = Some results /\
    length results = length ts /\
    results !! i = Some result /\
    (separation_type params = "THREE PHASES" ->
     let vs_oil := get (Meter_Oil entry) 0 - prev_meter_oil prev in
     let vs_water := get (Meter_Water entry) 0 - prev_meter_water prev in
     let wio := get (WIO entry) 0 / 100 in
     let q_oil := vs_oil * (1 - wio) * meter_factor params * sf * vcf_sep * 48 in
     prev_meter_oil prev = previous_reading Meter_Oil /\
     prev_meter_water prev = previous_reading Meter_Water /\
     (volume_differences params prev entry).2 = ThreePhases vs_oil vs_water wio /\
     prev_meter_oil next = get (Meter_Oil entry) 0 /\
     prev_meter_water next = get (Meter_Water entry) 0 /\
     result !! "Q Oil" = Some (PNum (Fl q_oil)) /\
     (vs_oil < 0 -> 0 < (1 - wio) * meter_factor params * sf -> q_oil < 0)) /\
    (separation_type params <> "THREE PHASES" ->
     let vs_liquid := get (Meter_Liquid entry) 0 - prev_meter_liquid prev in
     let bsw := get (BSW entry) 0 / 100 in
     let q_oil := vs_liquid * (1 - bsw) * meter_factor params * sf * vcf_sep * 48 in
     prev_meter_liquid prev = previous_reading Meter_Liquid /\
     (volume_differences params prev entry).2 = TwoPhases vs_liquid bsw /\
     prev_meter_liquid next = get (Meter_Liquid entry) 0 /\
     result !! "Q Oil" = Some (PNum (Fl q_oil)) /\
     (vs_liquid < 0 -> 0 < (1 - bsw) * meter_factor params * sf -> q_oil < 0)).
Proof.
  intros Hi prev next previous_reading sf vcf_sep.
  split; [reflexivity |].
  destruct (process_entries_results params ts initial_meters)
    as (results & Hrun & Hlen & Hnth).
  destruct (Hnth i entry Hi) as (result & prev' & Hres & Hbody).
  fold (meters_before params ts i) in Hbody. fold prev in Hbody.
  destruct (process_entry_result params prev entry) as (r & Hr & Hoil & _).
  rewrite Hbody in Hr. injection Hr as -> <-.
  cbv zeta in Hoil.
  assert (Hvcf : 0 < vcf_sep) by apply exp_pos.
  assert (Hnext : next = (volume_differences params prev entry).1)
    by (apply meters_before_S; exact Hi).
  exists results, result.
  split; [exact Hrun |]. split; [exact Hlen |]. split; [exact Hres |].
  split; intros Hsep; cbv zeta.
  - assert (Hprev : prev_meter_oil prev = previous_reading Meter_Oil /\
                    prev_meter_water prev = previous_reading Meter_Water).
    { unfold prev, previous_reading. destruct i as [| j]; [done |].
      destruct (lookup_lt_is_Some_2 ts j) as [e He].
      { apply lookup_lt_Some in Hi. lia. }
      rewrite (meters_before_S params ts j e He), He.
      unfold volume_differences. rewrite decide_True by exact Hsep. done. }
    destruct Hprev as [Hpo Hpw].
    revert Hoil. rewrite Hnext. unfold volume_differences.
    rewrite decide_True by exact Hsep. simpl. intros Hoil.
    repeat split; try assumption.
    intros Hneg Hpos. fold sf vcf_sep. now apply negative_rate.
  - assert (Hprev : prev_meter_liquid prev = previous_reading Meter_Liquid).
    { unfold prev, previous_reading. destruct i as [| j]; [done |].
      destruct (lookup_lt_is_Some_2 ts j) as [e He].
      { apply lookup_lt_Some in Hi. lia. }
      rewrite (meters_before_S params ts j e He), He.
      unfold volume_differences. rewrite decide_False by exact Hsep. done. }
    revert Hoil. rewrite Hnext. unfold volume_differences.
    rewrite decide_False by exact Hsep. simpl. intros Hoil.
    repeat split; try assumption.
    intros Hneg Hpos. fold sf vcf_sep. now apply negative_rate.
Qed.

(** A liquid meter that falls from 50 to 30 barrels: the second entry is
    differenced against 50, its volume is -20 barrels, and 30 is carried
    on. *)
Lemma meter_differencing_witness :
  decreasing_series !! 1%nat = Some (liquid_entry "00:30" 30) /\
  prev_meter_liquid (meters_before two_phase_params decreasing_series 1) = 50 /\
  (volume_differences two_phase_params
     (meters_before two_phase_params decreasing_series 1)
     (liquid_entry "00:30" 30)).2 = TwoPhases (30 - 50) (10 / 100) /\
  prev_meter_liquid (meters_before two_phase_params decreasing_series 2) = 30.
Proof.
  assert (Hi : decreasing_series !! 1%nat = Some (liquid_entry "00:30" 30))
    by reflexivity.
  assert (Hsep : separation_type two_phase_params <> "THREE PHASES") by done.
  destruct (meter_differencing two_phase_params decreasing_series 1
              (liquid_entry "00:30" 30) Hi)
    as (_ & results & result & _ & _ & _ & _ & Htwo).
  destruct (Htwo Hsep) as (Hprev & Hvols & Hnext & _ & _).
  split; [exact Hi |]. split; [exact Hprev |].
  split; [| exact Hnext].
  rewrite Hvols, Hprev. reflexivity.
Defined.

(** ** The averages *)

Section Averages.

Variable results : list (gmap string pyval).

Lemma field_values_unique (key : string) (values values' : list num) :
  field_values results key values -> field_values results key values' -> values = values'.
Proof.
  unfold field_values. intros H. revert values'.
  induction H as [| r n rs ns Hr _ IH]; intros values' H'.
  - now inversion H'.
  - inversion H' as [| r' n' rs' ns' Hr' Hrest]; subst.
    rewrite Hr in Hr'. injection Hr' as <-. f_equal. now apply IH.
Qed.

Lemma mapM_field_values (key : string) (values : list num) :
  field_values results key values ->
  mapM (fun r : gmap string pyval => r !! key) results = Some (PNum <$> values).
Proof.
  unfold field_values. induction 1 as [| r n rs ns Hr _ IH]; [done |].
  simpl. rewrite Hr. bind_step. rewrite IH. reflexivity.
Qed.

Lemma py_sum_from_numbers (values : list num) :
  forall acc : num,
    py_sum_from acc (PNum <$> values)
      = Some (nadd acc (foldr nadd (Fl 0) values)).
Proof.
  induction values as [| n ns IH]; intros acc; simpl.
  - now rewrite nadd_0_r.
  - now rewrite IH, nadd_assoc.
Qed.

(** What one iteration of the loop over the keys stores for [key]. *)
Lemma field_average
    {A : Type} (key : string) (values : list num) (rest : num -> option A) :
  results <> [] -> field_values results key values ->
  (vs ← mapM (fun r : gmap string pyval => r !! key) results;
   total ← py_sum vs;
   mean ← ndiv total (INR (length vs));
   rest mean) = rest (arithmetic_mean values).
Proof.
  intros Hne Hvalues.
  rewrite (mapM_field_values key values Hvalues). bind_step.
  unfold py_sum. rewrite py_sum_from_numbers, nadd_0_l. bind_step.
  rewrite length_fmap, ndiv_nonzero; [reflexivity |].
  apply not_0_INR. intros Hlen.
  apply Forall2_length in Hvalues. rewrite Hlen in Hvalues.
  destruct results; [contradiction | discriminate].
Qed.

Lemma averages_loop_cons
    (key : string) (keys : list string) (acc : gmap string num) :
  averages_loop (key :: keys) results acc =
  if decide (key <> "Time") then
    vs ← mapM (fun r : gmap string pyval => r !! key) results;
    total ← py_sum vs;
    mean ← ndiv total (INR (length vs));
    averages_loop keys results (<[ key := mean ]> acc)
  else averages_loop keys results acc.
Proof. reflexivity. Qed.

Lemma averages_loop_result (keys : list string) :
  results <> [] ->
  (forall key, key ∈ keys -> key <> "Time" -> exists values, field_values results key values) ->
  forall acc : gmap string num,
  exists averages : gmap string num,
    averages_loop keys results acc = Some averages /\
    forall key,
      (key ∈ keys -> key <> "Time" ->
       forall values, field_values results key values ->
       averages !! key = Some (arithmetic_mean values)) /\
      (key ∉ keys \/ key = "Time" -> averages !! key = acc !! key).
Proof.
  intros Hne. induction keys as [| k ks IH]; intros Hall acc.
  - exists acc. split; [reflexivity |]. intros key. split; [| done].
    intros Hin. now apply not_elem_of_nil in Hin.
  - assert (Hrest : forall key, key ∈ ks -> key <> "Time" ->
                      exists values, field_values results key values).
    { intros key Hin. apply Hall. now right. }
    rewrite averages_loop_cons. destruct (decide (k <> "Time")) as [Hk | Hk].
    + destruct (Hall k) as [vk Hvk]; [now left | exact Hk |].
      rewrite (field_average k vk _ Hne Hvk).
      destruct (IH Hrest (<[k := arithmetic_mean vk]> acc))
        as (averages & Hrun & Hkeys).
      exists averages. split; [exact Hrun |].
      intros key. destruct (Hkeys key) as [Hmean Hother]. split.
      * intros Hin Hkey values Hvalues.
        destruct (decide (key ∈ ks)) as [Hks | Hks]; [now apply Hmean |].
        apply elem_of_cons in Hin as [-> | Hin]; [| contradiction].
        rewrite Hother by now left.
        rewrite lookup_insert_eq.
        now rewrite (field_values_unique k values vk Hvalues Hvk).
      * intros [Hout | Htime].
        -- apply not_elem_of_cons in Hout as [Hneq Hout].
           rewrite Hother by now left.
           now rewrite lookup_insert_ne.
        -- subst key. rewrite Hother by now right.
           now rewrite lookup_insert_ne.
    + apply dec_stable in Hk. subst k.
      destruct (IH Hrest acc) as (averages & Hrun & Hkeys).
      exists averages. split; [exact Hrun |].
      intros key. destruct (Hkeys key) as [Hmean Hother]. split.
      * intros Hin Hkey. apply Hmean; [| exact Hkey].
        apply elem_of_cons in Hin as [-> | Hin]; [contradiction | exact Hin].
      * intros [Hout | Htime]; [| apply Hother; now right].
        apply not_elem_of_cons in Hout as [_ Hout]. apply Hother. now left.
Qed.

End Averages.

Lemma keys_of_result (first : gmap string pyval) (key : string) :
  key ∈ (map_to_list first).*1 <-> is_Some (first !! key).
Proof.
  rewrite list_elem_of_fmap. split.
  - intros ([k v] & -> & Hin). apply elem_of_map_to_list in Hin. now exists v.
  - intros [v Hv]. exists (key, v). split; [reflexivity |].
    now apply elem_of_map_to_list.
Qed.

(** With at least one result the method completes and stores the means,
    provided every result holds a number under each key of the first one
    other than "Time". *)
Lemma calculate_averages_stores_means
    (project : Project) (first : gmap string pyval)
    (rest : list (gmap string pyval)) :
  results project = first :: rest ->
  (forall key, is_Some (first !! key) -> key <> "Time" ->
     exists values, field_values (results project) key values) ->
  exists project' : Project,
    calculate_averages project = Some project' /\
    results project' = results project /\
    (forall key values,
       is_Some (first !! key) -> key <> "Time" ->
       field_values (results project) key values ->
       averages project' !! key = Some (arithmetic_mean values)) /\
    (forall key,
       first !! key = None \/ key = "Time" ->
       averages project' !! key = None).
Proof.
  intros Hres Hall.
  assert (Hne : results project <> []) by now rewrite Hres.
  destruct (averages_loop_result (results project) (map_to_list first).*1 Hne)
    with (acc := (∅ : gmap string num)) as (avgs & Hrun & Hkeys).
  { intros key Hin. apply Hall. now apply keys_of_result. }
  unfold calculate_averages. rewrite Hres in *.
  rewrite Hrun. bind_step.
  eexists. split; [reflexivity |]. split; [reflexivity |]. simpl.
  split.
  - intros key values Hkey Htime Hvalues.
    apply (Hkeys key); [now apply keys_of_result | exact Htime |].
    exact Hvalues.
  - intros key Hkey. destruct (Hkeys key) as [_ Hother].
    rewrite Hother; [apply lookup_empty |].
    destruct Hkey as [Hnone | Htime]; [left | now right].
    rewrite keys_of_result, Hnone. now intros [v Hv].
Qed.

(** ** The whole calculation *)

(** Two results built for the same parameters carry numbers under the same
    keys. *)
Lemma process_entry_same_fields
    (params : Params) (prev1 prev2 prev1' prev2' : Meters) (entry1 entry2 : Entry)
    (result1 result2 : gmap string pyval) (key : string) :
  process_entry params prev1 entry1 = Some (prev1', result1) ->
  process_entry params prev2 entry2 = Some (prev2', result2) ->
  is_Some (result1 !! key) -> key <> "Time" ->
  exists n : num, result2 !! key = Some (PNum n).
Proof.
  unfold process_entry.
  destruct (volume_differences params prev1 entry1) as [p1 vols1].
  destruct (volume_differences params prev2 entry2) as [p2 vols2].
  destruct (entry_liquid_rates params vols1 entry1) as [q_oil1 q_water1].
  destruct (entry_liquid_rates params vols2 entry2) as [q_oil2 q_water2].
  rewrite !guarded_ratio_total. bind_step.
  destruct (decide (production_type params = "GAS LIFT")) as [Hlift | Hlift].
  - destruct (calculate_for_gas_lift _ _ q_oil1 _) as [[f1 g1] t1].
    destruct (calculate_for_gas_lift _ _ q_oil2 _) as [[f2 g2] t2].
    intros [= _ <-] [= _ <-] [v Hkey] Htime.
    repeat (apply lookup_insert_Some in Hkey as [[<- _] | [_ Hkey]];
            [eexists; reflexivity |]).
    apply lookup_singleton_Some in Hkey as [<- _]. contradiction.
  - intros [= _ <-] [= _ <-] [v Hkey] Htime.
    repeat (apply lookup_insert_Some in Hkey as [[<- _] | [_ Hkey]];
            [eexists; reflexivity |]).
    apply lookup_singleton_Some in Hkey as [<- _]. contradiction.
Qed.

Lemma process_entries_built (params : Params) (ts : list Entry) :
  forall (prev : Meters) (results : list (gmap string pyval)),
    process_entries params prev ts = Some results ->
    Forall (fun result =>
              exists prev prev' entry,
                process_entry params prev entry = Some (prev', result))
      results.
Proof.
  induction ts as [| entry rest IH]; intros prev results; simpl.
  - intros [= <-]. constructor.
  - destruct (process_entry params prev entry) as [[prev' result] |] eqn:Hbody;
      [| discriminate].
    bind_step.
    destruct (process_entries params prev' rest) as [rs |] eqn:Hrest;
      [| discriminate].
    intros [= <-]. constructor; [| now apply (IH prev')].
    now exists prev, prev', entry.
Qed.

Lemma field_values_exist (results : list (gmap string pyval)) (key : string) :
  Forall (fun result : gmap string pyval =>
            exists n : num, result !! key = Some (PNum n)) results ->
  exists values, field_values results key values.
Proof.
  unfold field_values. induction 1 as [| r rs [n Hn] _ [ns IH]].
  - exists []. constructor.
  - exists (n :: ns). now constructor.
Qed.

(** On the modelled inputs the two methods raise nothing: every time series
    gets its results and its averages. *)
Lemma perform_calculations_completes (project : Project) :
  exists project' : Project,
    perform_calculations project = Some project' /\
    length (results project') = length (time_series project).
Proof.
  unfold perform_calculations.
  destruct (process_entries_results (parameters project) (time_series project)
              initial_meters) as (rs & Hrun & Hlen & _).
  rewrite Hrun. bind_step.
  pose proof (process_entries_built _ _ _ _ Hrun) as Hbuilt.
  set (computed := {| parameters := parameters project;
                      time_series := time_series project;
                      results := rs;
                      averages := averages project |}).
  destruct rs as [| first rest].
  - exists computed. split; [reflexivity | exact Hlen].
  - destruct (calculate_averages_stores_means computed first rest eq_refl)
      as (project' & Hdone & Hres & _).
    + intros key Hkey Htime. apply field_values_exist.
      inversion Hbuilt as [| r rs' (p1 & p1' & e1 & Hfirst) _]; subst.
      eapply Forall_impl; [exact Hbuilt |].
      intros r (p2 & p2' & e2 & Hr). simpl in Hr.
      now apply (process_entry_same_fields _ _ _ _ _ _ _ _ _ _ Hfirst Hr).
    + exists project'. split; [exact Hdone |]. now rewrite Hres.
Qed.

(** C8: an empty result sequence does not yield an empty mapping.  With no
    results the method returns before it stores anything, and the averages
    of an earlier calculation stay in the project. *)
Lemma empty_results_keep_stale_averages :
  ~ (forall project' : Project,
       calculate_averages stale_project = Some project' ->
       averages project' = ∅).
Proof.
  intros Hempty. specialize (Hempty stale_project eq_refl).
  revert Hempty. apply map_non_empty_singleton.
Qed.

(** C8, amended: with no results the method leaves the project, and so its
    averages, as they were.  With results, if every result holds a number
    under each key of the first result other than "Time", the method stores
    under each such key the unweighted arithmetic mean of the values the
    results hold under it, and stores nothing under any other key. *)
Theorem averages_are_field_means (project : Project) :
  (results project = [] -> calculate_averages project = Some project) /\
  forall (first : gmap string pyval) (rest : list (gmap string pyval)),
    results project = first :: rest ->
    (forall key, is_Some (first !! key) -> key <> "Time" ->
       exists values, field_values (results project) key values) ->
    exists project' : Project,
      calculate_averages project = Some project' /\
      results project' = results project /\
      (forall key values,
         is_Some (first !! key) -> key <> "Time" ->
         field_values (results project) key values ->
         averages project' !! key = Some (arithmetic_mean values)) /\
      (forall key,
         first !! key = None \/ key = "Time" ->
         averages project' !! key = None).
Proof.
  split.
  - intros Hnil. unfold calculate_averages. now rewrite Hnil.
  - intros first rest. apply calculate_averages_stores_means.
Qed.

(** Two results whose oil rates are 100 and 200 average to 150; a project
    without results is returned as it is. *)
Lemma averages_are_field_means_witness :
  (exists project' : Project,
     calculate_averages two_results_project = Some project' /\
     averages project' !! "Q Oil" = Some (Fl 150)) /\
  calculate_averages stale_project = Some stale_project.
Proof.
  split.
  - destruct (averages_are_field_means two_results_project) as [_ Hmeans].
    destruct (Hmeans (oil_rate_result "00:00" 100) [oil_rate_result "00:30" 200]
                eq_refl)
      as (project' & Hrun & _ & Hkeys & _).
    + intros key [v Hkey] Htime.
      unfold oil_rate_result in Hkey.
      apply lookup_insert_Some in Hkey as [[<- _] | [_ Hkey]].
      * exists [Fl 100; Fl 200]. repeat constructor.
      * apply lookup_singleton_Some in Hkey as [<- _]. contradiction.
    + exists project'. split; [exact Hrun |].
      rewrite (Hkeys "Q Oil" [Fl 100; Fl 200]).
      * unfold arithmetic_mean. simpl. do 2 f_equal. lra.
      * now exists (PNum (Fl 100)).
      * done.
      * repeat constructor.
  - apply (averages_are_field_means stale_project). reflexivity.
Defined.

(** * Further properties of the engine *)

Import Series.

(** ** Oil gravity and volume correction *)

(** X1: at or below 60 degrees F the observed gravity is returned as it is;
    the correction never raises the gravity of an oil of 10 degrees API or
    more, never lowers that of a heavier oil, and leaves 10 degrees API
    fixed. *)
Theorem oil_api_60f_correction_direction (oil_api oil_temp : R) :
  (oil_temp * 9 / 5 + 32 <= 60 ->
   calculate_oil_api_60f oil_api oil_temp = oil_api) /\
  (10 <= oil_api -> calculate_oil_api_60f oil_api oil_temp <= oil_api) /\
  (oil_api <= 10 -> oil_api <= calculate_oil_api_60f oil_api oil_temp) /\
  calculate_oil_api_60f 10 oil_temp = 10.
Proof.
  unfold calculate_oil_api_60f.
  repeat split.
  - intros Hcold. now rewrite decide_True.
  - intros Hlight. destruct (decide (_ <= 60)) as [Hcold | Hhot]; [lra | nra].
  - intros Hheavy. destruct (decide (_ <= 60)) as [Hcold | Hhot]; [lra | nra].
  - destruct (decide (_ <= 60)); lra.
Qed.

Lemma oil_api_60f_correction_direction_witness :
  calculate_oil_api_60f 30 15 = 30 /\
  calculate_oil_api_60f 30 60 <= 30 /\
  8 <= calculate_oil_api_60f 8 60.
Proof.
  split; [| split].
  - apply (oil_api_60f_correction_direction 30 15). lra.
  - apply (oil_api_60f_correction_direction 30 60). lra.
  - apply (oil_api_60f_correction_direction 8 60). lra.
Defined.

Lemma exp_le_compat (x y : R) : x <= y -> exp x <= exp y.
Proof.
  intros [Hlt | ->]; [left; now apply exp_increasing | right; reflexivity].
Qed.

(** X2: the volume correction factor is positive for every input, and from
    60 degrees F upwards it does not grow with the separator temperature as
    long as [0.00034878 - 0.00000091 * oil_api_60f] is positive. *)
Theorem vcf_sep_decreases_with_temperature (t1 t2 oil_api_60f : R) :
  0 < calculate_vcf_sep t1 oil_api_60f /\
  (0 < 0.00034878 - 0.00000091 * oil_api_60f ->
   60 <= t1 * 9 / 5 + 32 -> t1 <= t2 ->
   calculate_vcf_sep t2 oil_api_60f <= calculate_vcf_sep t1 oil_api_60f).
Proof.
  unfold calculate_vcf_sep. split; [apply exp_pos |].
  intros Halpha Hwarm Hle. apply exp_le_compat.
  set (alpha := 0.00034878 - 0.00000091 * oil_api_60f) in *.
  set (d1 := t1 * 9 / 5 + 32 - 60).
  set (d2 := t2 * 9 / 5 + 32 - 60).
  assert (Hd1 : 0 <= d1) by (unfold d1; lra).
  assert (Hd : d1 <= d2) by (unfold d1, d2; lra).
  simpl. nra.
Qed.

Lemma vcf_sep_decreases_with_temperature_witness :
  calculate_vcf_sep 40 30 <= calculate_vcf_sep 20 30.
Proof.
  apply (vcf_sep_decreases_with_temperature 20 40 30); lra.
Defined.

(** ** Shrinkage *)

(** X3: for a GOR2 and a separator pressure that are not negative the
    shrinkage factor lies between [1 - 3.5e-7 * gor2 * sep_p] and 1, and it
    is exactly 1 when either is zero; on a GOR2 that is not a float the
    handler returns 1. *)
Theorem shrinkage_factor_bounds (gor2 sep_p oil_api_60f : R) :
  (0 <= gor2 -> 0 <= sep_p ->
   1 - 0.00000035 * gor2 * sep_p
     <= calculate_shrinkage_factor (Fl gor2) sep_p oil_api_60f <= 1) /\
  (gor2 = 0 \/ sep_p = 0 ->
   calculate_shrinkage_factor (Fl gor2) sep_p oil_api_60f = 1) /\
  calculate_shrinkage_factor Cx sep_p oil_api_60f = 1.
Proof.
  unfold calculate_shrinkage_factor, try_except; simpl.
  split; [| split; [| reflexivity]].
  - intros Hg Hp.
    assert (Hgp : 0 <= gor2 * sep_p) by nra.
    repeat destruct (decide _); nra.
  - intros Hzero.
    assert (Hgp : gor2 * sep_p = 0) by (destruct Hzero; subst; lra).
    repeat destruct (decide _); nra.
Qed.

Lemma shrinkage_factor_bounds_witness :
  1 - 0.00000035 * 200 * 100 <= calculate_shrinkage_factor (Fl 200) 100 30 <= 1 /\
  calculate_shrinkage_factor (Fl 0) 100 30 = 1.
Proof.
  split.
  - apply (shrinkage_factor_bounds 200 100 30); lra.
  - apply (shrinkage_factor_bounds 0 100 30). left. reflexivity.
Defined.

(** ** GOR2 *)

Lemma katz_float (sg_gas sep_p oil_api_60f sep_temp : R) :
  0 < sep_p + 14.7 ->
  _katz sg_gas sep_p oil_api_60f sep_temp =
  Fl (0.224 * sg_gas * Rpower (sep_p + 14.7) 1.182
      * Rpower 10 (0.01245 * oil_api_60f - 0.00091 * sep_temp)).
Proof.
  intros Hp. unfold _katz, try_except.
  rewrite float_pow_pos by exact Hp. reflexivity.
Qed.

Lemma gor2_method_katz (oil_api_60f sg_gas sep_p sep_temp : R) :
  calculate_gor2 oil_api_60f sg_gas sep_p sep_temp "KATZ"
    = _katz sg_gas (sep_p + 14.7) oil_api_60f (sep_temp * 9 / 5 + 32).
Proof.
  unfold calculate_gor2.
  rewrite (decide_False (P := "KATZ" = "API")) by done.
  rewrite (decide_False (P := "KATZ" = "VASQUEZ_BEGGS")) by done.
  rewrite (decide_False (P := "KATZ" = "STANDINGS")) by done.
  now rewrite (decide_True (P := "KATZ" = "KATZ")).
Qed.

Lemma gor2_standings_method (oil_api_60f sg_gas sep_p sep_temp : R) :
  calculate_gor2 oil_api_60f sg_gas sep_p sep_temp "STANDINGS"
    = _standings sg_gas (sep_p + 14.7) oil_api_60f (sep_temp * 9 / 5 + 32).
Proof.
  unfold calculate_gor2.
  rewrite (decide_False (P := "STANDINGS" = "API")) by done.
  rewrite (decide_False (P := "STANDINGS" = "VASQUEZ_BEGGS")) by done.
  now rewrite (decide_True (P := "STANDINGS" = "STANDINGS")).
Qed.

Lemma not_an_integer_1182 (z : Z) : 1.182 <> IZR z.
Proof.
  intros Heq.
  assert (1 < z < 2)%Z by (split; apply lt_IZR; rewrite <- Heq; lra).
  lia.
Qed.

Lemma shrinkage_factor_bounds_zero_gor2 (sep_p oil_api_60f : R) :
  calculate_shrinkage_factor (Fl 0) sep_p oil_api_60f = 1.
Proof.
  unfold calculate_shrinkage_factor, try_except; simpl.
  repeat destruct (decide _); lra.
Qed.

(** X4: a method name other than the four the function compares with gives
    a GOR2 of 0; the loop then works with a shrinkage factor of exactly 1. *)
Theorem gor2_unknown_method_is_zero
    (oil_api_60f sg_gas sep_p sep_temp : R) (method : string)
    (params : Params) (entry : Entry) :
  (method <> "API" -> method <> "VASQUEZ_BEGGS" ->
   method <> "STANDINGS" -> method <> "KATZ" ->
   calculate_gor2 oil_api_60f sg_gas sep_p sep_temp method = Fl 0) /\
  (gor2_method params <> "API" -> gor2_method params <> "VASQUEZ_BEGGS" ->
   gor2_method params <> "STANDINGS" -> gor2_method params <> "KATZ" ->
   entry_gor2 params entry = Fl 0 /\ entry_sf params entry = 1).
Proof.
  assert (Hzero : forall a g p t m,
            m <> "API" -> m <> "VASQUEZ_BEGGS" -> m <> "STANDINGS" ->
            m <> "KATZ" -> calculate_gor2 a g p t m = Fl 0).
  { intros a g p t m H1 H2 H3 H4. unfold calculate_gor2.
    now rewrite !decide_False. }
  split; [apply Hzero |].
  intros H1 H2 H3 H4.
  assert (Hgor2 : entry_gor2 params entry = Fl 0) by now apply Hzero.
  split; [exact Hgor2 |].
  unfold entry_sf. rewrite Hgor2.
  apply shrinkage_factor_bounds_zero_gor2.
Qed.

(** The third and fourth items of the method combo box are spelt
    "VASQUEZ BEGGS" and "STANDING'S". *)
Lemma gor2_unknown_method_is_zero_witness :
  calculate_gor2 30 0.65 100 20 "STANDING'S" = Fl 0 /\
  entry_gor2 combo_box_params (liquid_entry "00:00" 50) = Fl 0 /\
  entry_sf combo_box_params (liquid_entry "00:00" 50) = 1.
Proof.
  split.
  - apply (gor2_unknown_method_is_zero 30 0.65 100 20 "STANDING'S"
             combo_box_params (liquid_entry "00:00" 50)); done.
  - apply (gor2_unknown_method_is_zero 30 0.65 100 20 "STANDING'S"
             combo_box_params (liquid_entry "00:00" 50)); done.
Defined.

(** X5: in the two lower tiers the automatic method agrees with the explicit
    one: it returns what STANDINGS returns from 25 to 35 degrees API and
    what KATZ returns below 25. *)
Theorem gor2_automatic_lower_tiers (oil_api_60f sg_gas sep_p sep_temp : R) :
  (25 <= oil_api_60f <= 35 ->
   calculate_gor2 oil_api_60f sg_gas sep_p sep_temp "API"
     = calculate_gor2 oil_api_60f sg_gas sep_p sep_temp "STANDINGS") /\
  (oil_api_60f < 25 ->
   calculate_gor2 oil_api_60f sg_gas sep_p sep_temp "API"
     = calculate_gor2 oil_api_60f sg_gas sep_p sep_temp "KATZ").
Proof.
  split; intros Htier.
  - rewrite gor2_standings_method. unfold calculate_gor2.
    rewrite (decide_True (P := "API" = "API")) by done.
    rewrite decide_False by lra. now rewrite decide_True.
  - rewrite gor2_method_katz. unfold calculate_gor2.
    rewrite (decide_True (P := "API" = "API")) by done.
    rewrite decide_False by lra. rewrite decide_False by lra. reflexivity.
Qed.

Lemma gor2_automatic_lower_tiers_witness :
  calculate_gor2 30 0.65 100 20 "API" = calculate_gor2 30 0.65 100 20 "STANDINGS" /\
  calculate_gor2 20 0.65 100 20 "API" = calculate_gor2 20 0.65 100 20 "KATZ".
Proof.
  split.
  - apply (gor2_automatic_lower_tiers 30 0.65 100 20). lra.
  - apply (gor2_automatic_lower_tiers 20 0.65 100 20). lra.
Defined.

(** X7: the KATZ method sees the separator pressure plus twice 14.7.  Above
    -29.4 psig the result is Katz's formula at that pressure, at -29.4 psig
    it is 0, and below it is a complex number, which no handler catches. *)
Theorem gor2_katz_pressure_regimes (oil_api_60f sg_gas sep_p sep_temp : R) :
  (-29.4 < sep_p ->
   calculate_gor2 oil_api_60f sg_gas sep_p sep_temp "KATZ"
     = Fl (0.224 * sg_gas * Rpower (sep_p + 14.7 + 14.7) 1.182
           * Rpower 10 (0.01245 * oil_api_60f
                        - 0.00091 * (sep_temp * 9 / 5 + 32)))) /\
  (sep_p = -29.4 ->
   calculate_gor2 oil_api_60f sg_gas sep_p sep_temp "KATZ" = Fl 0) /\
  (sep_p < -29.4 ->
   calculate_gor2 oil_api_60f sg_gas sep_p sep_temp "KATZ" = Cx).
Proof.
  rewrite gor2_method_katz.
  split; [| split].
  - intros Hp. apply katz_float. lra.
  - intros ->. unfold _katz, try_except, float_pow.
    rewrite decide_False by lra. rewrite decide_True by lra.
    rewrite decide_True by lra. simpl. f_equal. lra.
  - intros Hp. unfold _katz, try_except, float_pow.
    rewrite decide_False by lra. rewrite decide_False by lra.
    rewrite decide_False by apply not_an_integer_1182. reflexivity.
Qed.

Lemma gor2_katz_pressure_regimes_witness :
  calculate_gor2 20 0.65 (-29.4) 20 "KATZ" = Fl 0 /\
  calculate_gor2 20 0.65 (-30) 20 "KATZ" = Cx /\
  calculate_gor2 20 0.65 100 20 "KATZ"
    = Fl (0.224 * 0.65 * Rpower (100 + 14.7 + 14.7) 1.182
          * Rpower 10 (0.01245 * 20 - 0.00091 * (20 * 9 / 5 + 32))).
Proof.
  split; [| split].
  - apply (gor2_katz_pressure_regimes 20 0.65 (-29.4) 20). reflexivity.
  - apply (gor2_katz_pressure_regimes 20 0.65 (-30) 20). lra.
  - apply (gor2_katz_pressure_regimes 20 0.65 100 20). lra.
Defined.

(** Each correlation grows with the pressure it is given. *)
Lemma vasquez_beggs_increasing
    (sg_gas p1 p2 oil_api_60f sep_temp c1 c2 c3 : R) :
  0 < sg_gas -> 0 < c1 -> 0 < c2 -> 0 < p1 + 14.7 -> p1 < p2 ->
  sep_temp * 9 / 5 + 32 + 460 <> 0 ->
  exists g1 g2 : R,
    _vasquez_beggs sg_gas p1 oil_api_60f sep_temp c1 c2 c3 = Fl g1 /\
    _vasquez_beggs sg_gas p2 oil_api_60f sep_temp c1 c2 c3 = Fl g2 /\
    0 < g1 < g2.
Proof.
  intros Hsg Hc1 Hc2 Hp1 Hlt Ht.
  rewrite !vasquez_beggs_float by lra.
  do 2 eexists. split; [reflexivity |]. split; [reflexivity |].
  set (e := exp _). assert (He : 0 < e) by apply exp_pos.
  assert (Hpow : Rpower (p1 + 14.7) c2 < Rpower (p2 + 14.7) c2)
    by (apply Rlt_Rpower_l; lra).
  assert (Hpos : 0 < Rpower (p1 + 14.7) c2) by apply exp_pos.
  assert (Hk : 0 < sg_gas * c1) by nra.
  split.
  - apply Rmult_lt_0_compat; [apply Rmult_lt_0_compat |]; assumption.
  - apply Rmult_lt_compat_r; [exact He |].
    apply Rmult_lt_compat_l; assumption.
Qed.

Lemma standings_increasing (sg_gas p1 p2 oil_api_60f sep_temp : R) :
  0 < sg_gas -> 0 < p1 + 14.7 -> p1 < p2 ->
  exists g1 g2 : R,
    _standings sg_gas p1 oil_api_60f sep_temp = Fl g1 /\
    _standings sg_gas p2 oil_api_60f sep_temp = Fl g2 /\
    0 < g1 < g2.
Proof.
  intros Hsg Hp1 Hlt.
  rewrite !standings_float by lra.
  do 2 eexists. split; [reflexivity |]. split; [reflexivity |].
  set (w := Rpower 10 _). assert (Hw : 0 < w) by apply exp_pos.
  assert (Hb1 : 0 < (p1 + 14.7) * w / 18.2).
  { apply Rdiv_lt_0_compat; nra. }
  assert (Hb : (p1 + 14.7) * w / 18.2 < (p2 + 14.7) * w / 18.2).
  { unfold Rdiv. apply Rmult_lt_compat_r; nra. }
  split.
  - apply Rmult_lt_0_compat; [exact Hsg | apply exp_pos].
  - apply Rmult_lt_compat_l; [exact Hsg |].
    apply Rlt_Rpower_l; lra.
Qed.

Lemma katz_increasing (sg_gas p1 p2 oil_api_60f sep_temp : R) :
  0 < sg_gas -> 0 < p1 + 14.7 -> p1 < p2 ->
  exists g1 g2 : R,
    _katz sg_gas p1 oil_api_60f sep_temp = Fl g1 /\
    _katz sg_gas p2 oil_api_60f sep_temp = Fl g2 /\
    0 < g1 < g2.
Proof.
  intros Hsg Hp1 Hlt.
  rewrite !katz_float by lra.
  do 2 eexists. split; [reflexivity |]. split; [reflexivity |].
  set (w := Rpower 10 _). assert (Hw : 0 < w) by apply exp_pos.
  assert (Hpow : Rpower (p1 + 14.7) 1.182 < Rpower (p2 + 14.7) 1.182)
    by (apply Rlt_Rpower_l; lra).
  assert (Hpos : 0 < Rpower (p1 + 14.7) 1.182) by apply exp_pos.
  assert (Hk : 0 < 0.224 * sg_gas) by lra.
  split.
  - apply Rmult_lt_0_compat; [apply Rmult_lt_0_compat |]; assumption.
  - apply Rmult_lt_compat_r; [exact Hw |].
    apply Rmult_lt_compat_l; assumption.
Qed.

(** X6: for a positive gas gravity, a separator temperature of -40 degrees
    Celsius or more and a separator pressure above -14.7 psig, each of the
    four methods returns a positive float, and a higher separator pressure
    gives a strictly higher GOR2. *)
Theorem gor2_increases_with_pressure
    (oil_api_60f sg_gas p1 p2 sep_temp : R) (method : string) :
  0 < sg_gas -> -40 <= sep_temp -> -14.7 < p1 -> p1 < p2 ->
  method = "API" \/ method = "VASQUEZ_BEGGS" \/
  method = "STANDINGS" \/ method = "KATZ" ->
  exists g1 g2 : R,
    calculate_gor2 oil_api_60f sg_gas p1 sep_temp method = Fl g1 /\
    calculate_gor2 oil_api_60f sg_gas p2 sep_temp method = Fl g2 /\
    0 < g1 < g2.
Proof.
  intros Hsg Ht Hp1 Hlt Hmethod.
  assert (Ht1 : -40 <= sep_temp * 9 / 5 + 32) by lra.
  assert (Ht2 : -40 <= (sep_temp * 9 / 5 + 32) * 9 / 5 + 32) by lra.
  destruct Hmethod as [-> | [-> | [-> | ->]]].
  - unfold calculate_gor2.
    rewrite !(decide_True (P := "API" = "API")) by done.
    destruct (decide (oil_api_60f > 35)).
    { unfold vb_c1, vb_c2. apply vasquez_beggs_increasing; lra. }
    destruct (decide (25 <= oil_api_60f <= 35)).
    { apply standings_increasing; lra. }
    apply katz_increasing; lra.
  - unfold calculate_gor2.
    rewrite !(decide_False (P := "VASQUEZ_BEGGS" = "API")) by done.
    rewrite !(decide_True (P := "VASQUEZ_BEGGS" = "VASQUEZ_BEGGS")) by done.
    destruct (decide (oil_api_60f <= 30));
      apply vasquez_beggs_increasing; lra.
  - rewrite !gor2_standings_method. apply standings_increasing; lra.
  - rewrite !gor2_method_katz. apply katz_increasing; lra.
Qed.

Lemma gor2_increases_with_pressure_witness :
  exists g1 g2 : R,
    calculate_gor2 40 0.65 100 20 "VASQUEZ_BEGGS" = Fl g1 /\
    calculate_gor2 40 0.65 150 20 "VASQUEZ_BEGGS" = Fl g2 /\
    0 < g1 < g2.
Proof.
  apply (gor2_increases_with_pressure 40 0.65 100 150 20 "VASQUEZ_BEGGS");
    [lra | lra | lra | lra |].
  right. left. reflexivity.
Defined.

(** ** Supercompressibility *)

Lemma fdiv_Some (a d q : R) : fdiv a d = Some q -> d <> 0 /\ q = a / d.
Proof.
  unfold fdiv. destruct (decide (d = 0)); [discriminate |].
  intros [= <-]. done.
Qed.

Lemma math_sqrt_Some (x s : R) : math_sqrt x = Some s -> 0 <= x /\ s = sqrt x.
Proof.
  unfold math_sqrt. destruct (decide (x < 0)); [discriminate |].
  intros [= <-]. split; [lra | reflexivity].
Qed.

Lemma inverse_root_positive (z s r : R) :
  math_sqrt z = Some s -> fdiv 1 s = Some r -> 0 < r.
Proof.
  intros Hs Hr.
  apply math_sqrt_Some in Hs as [Hz ->].
  apply fdiv_Some in Hr as [Hne ->].
  pose proof (sqrt_pos z).
  apply Rdiv_lt_0_compat; lra.
Qed.

Lemma calculate_fpv_positive (sg_gas p t h2s co2 : R) :
  0 < calculate_fpv sg_gas p t h2s co2.
Proof.
  unfold calculate_fpv, try_except. cbv zeta.
  match goal with |- 0 < default 1 ?body => destruct body as [r |] eqn:Hbody end;
    simpl; [| lra].
  repeat (apply bind_Some in Hbody as (? & ? & Hbody)).
  eapply inverse_root_positive; eassumption.
Qed.

(** X8: the supercompressibility factor is positive for every input, whether
    the body completes or the handler answers. *)
Theorem fpv_is_positive (sg_gas p t h2s co2 : R) :
  0 < calculate_fpv sg_gas p t h2s co2.
Proof.
  unfold calculate_fpv, try_except. cbv zeta.
  match goal with |- 0 < default 1 ?body => destruct body as [r |] eqn:Hbody end;
    simpl; [| lra].
  repeat (apply bind_Some in Hbody as (? & ? & Hbody)).
  eapply inverse_root_positive; eassumption.
Qed.

(** X9: at a pressure of 0 the supercompressibility factor is exactly 1,
    whatever the gravity, the temperature and the sour-gas contents. *)
Theorem fpv_at_zero_pressure (sg_gas t h2s co2 : R) :
  calculate_fpv sg_gas 0 t h2s co2 = 1.
Proof.
  unfold calculate_fpv, try_except. cbv zeta.
  match goal with |- default 1 ?body = 1 => destruct body as [r |] eqn:Hbody end;
    simpl; [| reflexivity].
  apply bind_Some in Hbody as (a09 & _ & Hbody).
  apply bind_Some in Hbody as (a16 & _ & Hbody).
  apply bind_Some in Hbody as (h05 & _ & Hbody).
  apply bind_Some in Hbody as (ppc_corr & _ & Hbody).
  apply bind_Some in Hbody as (tpr & _ & Hbody).
  apply bind_Some in Hbody as (ppr & Hppr & Hbody).
  apply bind_Some in Hbody as (z1 & Hz1 & Hbody).
  apply bind_Some in Hbody as (z2 & Hz2 & Hbody).
  apply bind_Some in Hbody as (s & Hs & Hr).
  apply fdiv_Some in Hppr as [Hne ->].
  apply fdiv_Some in Hz1 as [Hne1 ->].
  apply fdiv_Some in Hz2 as [Hne2 ->].
  apply math_sqrt_Some in Hs as [_ ->].
  apply fdiv_Some in Hr as [_ ->].
  replace (1 - _ + _) with 1.
  - rewrite sqrt_1. lra.
  - unfold Rdiv. ring.
Qed.

(** ** The orifice equation, continued *)

(** The next step of the body may fail or succeed; go on in the second
    case. *)
Ltac fault_step x H :=
  apply bind_None;
  match goal with
  | |- ?m = None \/ _ =>
      destruct m as [x |] eqn:H;
      [right; exists x; split; [reflexivity |] | left; reflexivity]
  end.

Lemma ndiv_zero (a : num) : ndiv a 0 = None.
Proof. unfold ndiv. now rewrite decide_True. Qed.

Lemma fdiv_zero (a : R) : fdiv a 0 = None.
Proof. unfold fdiv. now rewrite decide_True. Qed.

Lemma math_sqrt_negative (x : R) : x < 0 -> math_sqrt x = None.
Proof. intros Hx. unfold math_sqrt. now rewrite decide_True. Qed.

Lemma gas_flow_body_faults
    (hw sep_p gas_t sg_gas orifice_d line_bore h2s co2 : R) :
  line_bore = 0 \/ 0 < line_bore <= orifice_d \/ sg_gas <= 0 \/
  gas_t <= -460 \/ hw * (sep_p + 14.7) < 0 ->
  gas_flow_body hw sep_p gas_t sg_gas orifice_d line_bore h2s co2 = None.
Proof.
  intros Hbad. unfold gas_flow_body. cbv zeta.
  destruct Hbad as [-> | Hbad]; [now rewrite fdiv_zero |].
  fault_step beta Hbeta.
  fault_step b21 Hb21.
  destruct Hbad as [[Hbore Horifice] | Hbad].
  { apply fdiv_Some in Hbeta as [_ ->].
    assert (H1 : 1 <= orifice_d / line_bore).
    { apply (Rmult_le_reg_r line_bore); [exact Hbore |].
      unfold Rdiv. rewrite Rmult_assoc, Rinv_l by lra. lra. }
    set (b := orifice_d / line_bore) in *.
    assert (H4 : 1 <= b ^ 4).
    { replace (b ^ 4) with ((b * b) * (b * b)) by ring.
      assert (1 <= b * b) by nra. nra. }
    destruct (decide (1 - b ^ 4 < 0)) as [Hneg | Hzero].
    - now rewrite (math_sqrt_negative (1 - b ^ 4)).
    - replace (1 - b ^ 4) with 0 by lra.
      rewrite (math_sqrt_nonneg 0), sqrt_0 by lra. bind_step.
      now rewrite ndiv_zero. }
  fault_step r1 Hr1.
  fault_step fb Hfb.
  destruct Hbad as [Hsg | Hbad].
  { destruct (decide (sg_gas < 0)) as [Hneg | Hzero].
    - now rewrite (math_sqrt_negative sg_gas).
    - assert (Hsg0 : sg_gas = 0) by lra.
      rewrite Hsg0 at 1.
      rewrite (math_sqrt_nonneg 0), sqrt_0 by lra. bind_step.
      now rewrite (fdiv_zero 1). }
  fault_step rg Hrg.
  fault_step fg Hfg.
  fault_step y2 Hy2.
  destruct Hbad as [Ht | Hroot].
  { destruct (decide (gas_t + 460 = 0)) as [Hzero | Hne].
    - rewrite Hzero. now rewrite (fdiv_zero 520).
    - rewrite (fdiv_nonzero 520) by exact Hne. bind_step.
      rewrite (math_sqrt_negative (520 / (gas_t + 460))); [reflexivity |].
      unfold Rdiv. assert (/ (gas_t + 460) < 0) by (apply Rinv_lt_0_compat; lra).
      nra. }
  fault_step qt Hqt.
  fault_step ftf Hftf.
  now rewrite (math_sqrt_negative (hw * (sep_p + 14.7))).
Qed.

(** X10: the gas rate is the default 0 when the line bore is 0, when the
    orifice is not strictly smaller than a positive line bore, when the gas
    gravity is not positive, when the gas temperature is -460 or less, or
    when the differential head and the absolute separator pressure have
    opposite signs. *)
Theorem gas_flow_defaults_to_zero
    (hw sep_p gas_t sg_gas orifice_d line_bore h2s co2 : R) :
  line_bore = 0 \/ 0 < line_bore <= orifice_d \/ sg_gas <= 0 \/
  gas_t <= -460 \/ hw * (sep_p + 14.7) < 0 ->
  calculate_gas_flow hw sep_p gas_t sg_gas orifice_d line_bore h2s co2 = Fl 0.
Proof.
  intros Hbad. unfold calculate_gas_flow.
  now rewrite gas_flow_body_faults.
Qed.

(** An orifice as wide as the line, and a negative differential head. *)
Lemma gas_flow_defaults_to_zero_witness :
  calculate_gas_flow 50 100 25 0.65 4 4 0 0 = Fl 0 /\
  calculate_gas_flow (-50) 100 25 0.65 2 4 0 0 = Fl 0.
Proof.
  split.
  - apply (gas_flow_defaults_to_zero 50 100 25 0.65 4 4 0 0).
    right. left. lra.
  - apply (gas_flow_defaults_to_zero (-50) 100 25 0.65 2 4 0 0).
    do 4 right. lra.
Defined.

Lemma expansion_factor_range (beta delta_p_psi p1 : R) :
  0 < beta < 1 -> 0 <= delta_p_psi <= p1 -> 0 < p1 ->
  exists y2 : R,
    expansion_factor beta delta_p_psi p1 = Some y2 /\ 0 < y2 <= 1.
Proof.
  intros Hbeta Hdp Hp1. unfold expansion_factor.
  rewrite fdiv_nonzero by lra. bind_step.
  eexists. split; [reflexivity |].
  assert (Hb4 : 0 < beta ^ 4 < 1).
  { replace (beta ^ 4) with ((beta * beta) * (beta * beta)) by ring.
    assert (0 < beta * beta < 1) by nra. nra. }
  set (k := 0.41 + 0.35 * beta ^ 4).
  assert (Hk : 0 < k < 0.76) by (unfold k; lra).
  assert (Hq : 0 <= k * delta_p_psi / (1.28 * p1) < 1).
  { split.
    - apply Rmult_le_pos; [nra |].
      apply Rlt_le, Rinv_0_lt_compat. lra.
    - apply (Rmult_lt_reg_r (1.28 * p1)); [lra |].
      unfold Rdiv. rewrite Rmult_assoc, Rinv_l by lra. nra. }
  lra.
Qed.

Lemma gas_flow_value
    (hw sep_p gas_t sg_gas orifice_d line_bore h2s co2 : R) :
  0 < line_bore -> 0 < orifice_d < line_bore -> 0 < sg_gas ->
  -460 < gas_t -> -14.7 < sep_p -> 0 <= hw ->
  exists q_gas : R,
    gas_flow_body hw sep_p gas_t sg_gas orifice_d line_bore h2s co2
      = Some (Fl q_gas) /\
    0 <= q_gas /\ (0 < hw -> 0 < q_gas).
Proof.
  intros Hbore [Hd0 Hd1] Hsg Ht Hp Hhw.
  set (beta := orifice_d / line_bore).
  assert (Hbeta : 0 < beta < 1).
  { unfold beta. split.
    - now apply Rdiv_lt_0_compat.
    - apply (Rmult_lt_reg_r line_bore); [exact Hbore |].
      unfold Rdiv. rewrite Rmult_assoc, Rinv_l by lra. lra. }
  assert (Hb4 : 0 < beta ^ 4 < 1).
  { replace (beta ^ 4) with ((beta * beta) * (beta * beta)) by ring.
    assert (0 < beta * beta < 1) by nra. nra. }
  assert (Hb8 : 0 < beta ^ 8 < 1).
  { replace (beta ^ 8) with (beta ^ 4 * beta ^ 4) by ring. nra. }
  set (pf := sep_p + 14.7).
  set (dp := hw * 0.03613).
  assert (Hpf : 0 < pf) by (unfold pf; lra).
  assert (Hdp : 0 <= dp) by (unfold dp; lra).
  destruct (expansion_factor_range beta dp (pf + dp)) as (y2 & Hy2 & Hy2pos);
    [exact Hbeta | lra | lra |].
  unfold gas_flow_body.
  rewrite (fdiv_nonzero orifice_d line_bore) by lra.
  fold beta. bind_step.
  rewrite (float_pow_pos beta) by apply Hbeta. bind_step.
  rewrite (math_sqrt_nonneg (1 - beta ^ 4)) by lra. bind_step.
  assert (Hr1 : 0 < sqrt (1 - beta ^ 4)) by (apply sqrt_lt_R0; lra).
  rewrite ndiv_nonzero by lra. bind_step.
  rewrite (math_sqrt_nonneg sg_gas) by lra. bind_step.
  assert (Hrg : 0 < sqrt sg_gas) by (apply sqrt_lt_R0; lra).
  rewrite (fdiv_nonzero 1) by lra. bind_step.
  fold pf dp. rewrite Hy2. bind_step.
  rewrite (fdiv_nonzero 520) by lra. bind_step.
  assert (Hqt : 0 < 520 / (gas_t + 460)) by (apply Rdiv_lt_0_compat; lra).
  rewrite (math_sqrt_nonneg (520 / (gas_t + 460))) by lra. bind_step.
  assert (Hftf : 0 < sqrt (520 / (gas_t + 460))) by (apply sqrt_lt_R0; lra).
  assert (Hroot : 0 <= hw * pf) by nra.
  rewrite (math_sqrt_nonneg (hw * pf)) by exact Hroot. bind_step.
  rewrite ndiv_nonzero by lra.
  cbn [nmul nsub nadd lift2 nquot].
  eexists. split; [reflexivity |].
  pose proof (calculate_fpv_positive sg_gas (pf + dp) gas_t h2s co2) as Hfpv.
  set (fpv := calculate_fpv sg_gas (pf + dp) gas_t h2s co2) in *.
  assert (Hb21 : 0 < Rpower beta 2.1) by apply exp_pos.
  set (cd := 0.5959 + 0.0312 * Rpower beta 2.1 - 0.1840 * beta ^ 8).
  assert (Hcd : 0 < cd) by (unfold cd; lra).
  assert (Hd2 : 0 < orifice_d ^ 2) by (simpl; nra).
  assert (Hfb : 0 < 338.17 * orifice_d ^ 2 * cd / sqrt (1 - beta ^ 4)).
  { apply Rdiv_lt_0_compat; [| exact Hr1].
    apply Rmult_lt_0_compat; [lra | exact Hcd]. }
  set (fb := 338.17 * orifice_d ^ 2 * cd / sqrt (1 - beta ^ 4)) in *.
  assert (Hfg : 0 < 1 / sqrt sg_gas) by (apply Rdiv_lt_0_compat; lra).
  set (fg := 1 / sqrt sg_gas) in *.
  set (ftf := sqrt (520 / (gas_t + 460))) in *.
  clearbody fb fg ftf fpv.
  assert (Hk : 0 < 24 * fb * fg * y2 * ftf * fpv).
  { repeat apply Rmult_lt_0_compat; lra. }
  set (k := 24 * fb * fg * y2 * ftf * fpv) in *.
  pose proof (sqrt_pos (hw * pf)) as Hrq.
  split.
  - apply Rmult_le_pos; [nra | lra].
  - intros Hhw'.
    assert (0 < sqrt (hw * pf)) by (apply sqrt_lt_R0; nra).
    apply Rdiv_lt_0_compat; [nra | lra].
Qed.

(** X11: for an orifice strictly inside a positive line bore, a positive gas
    gravity, a gas temperature above -460, a separator pressure above -14.7
    psig and a differential head that is not negative, the body raises
    nothing and the gas rate is a float that is not negative; it is positive
    as soon as the differential head is. *)
Theorem gas_flow_is_not_negative
    (hw sep_p gas_t sg_gas orifice_d line_bore h2s co2 : R) :
  0 < line_bore -> 0 < orifice_d < line_bore -> 0 < sg_gas ->
  -460 < gas_t -> -14.7 < sep_p -> 0 <= hw ->
  exists q_gas : R,
    calculate_gas_flow hw sep_p gas_t sg_gas orifice_d line_bore h2s co2
      = Fl q_gas /\
    0 <= q_gas /\ (0 < hw -> 0 < q_gas).
Proof.
  intros Hbore Hd Hsg Ht Hp Hhw.
  destruct (gas_flow_value hw sep_p gas_t sg_gas orifice_d line_bore h2s co2)
    as (q_gas & Hbody & Hsign); try assumption.
  exists q_gas. split; [| exact Hsign].
  unfold calculate_gas_flow. now rewrite Hbody.
Qed.

Lemma gas_flow_is_not_negative_witness :
  exists q_gas : R,
    calculate_gas_flow 50 100 25 0.65 2 4 0 0 = Fl q_gas /\ 0 < q_gas.
Proof.
  destruct (gas_flow_is_not_negative 50 100 25 0.65 2 4 0 0)
    as (q_gas & Hflow & _ & Hpos); try lra.
  exists q_gas. split; [exact Hflow | apply Hpos; lra].
Defined.

(** ** Liquid rates *)





(** ** Gas lift *)

(** X14: for a float gas rate and an injected rate that are not negative,
    the formation gas lies between 0 and the gas rate, the formation GOR1
    lies between 0 and the GOR1 of the same oil rate, and the total
    formation GOR is the formation GOR1 plus GOR2. *)
Theorem formation_figures_below_totals (q_gas q_gas_inj q_oil : R) (gor2 : num) :
  0 <= q_gas -> 0 <= q_gas_inj ->
  exists formation_gas gor1_formation gor1 : R,
    calculate_for_gas_lift (Fl q_gas) q_gas_inj q_oil gor2
      = (formation_gas, Fl gor1_formation, nadd (Fl gor1_formation) gor2) /\
    guarded_ratio (Fl q_gas) q_oil = Some (Fl gor1) /\
    0 <= formation_gas <= q_gas /\
    0 <= gor1_formation <= gor1.
Proof.
  intros Hgas Hinj.
  unfold calculate_for_gas_lift, try_except.
  rewrite gas_lift_body_float, guarded_ratio_total; simpl.
  rewrite py_max_Rmax.
  assert (Hmax : 0 <= Rmax (q_gas - q_gas_inj) 0 <= q_gas).
  { unfold Rmax. destruct (Rle_dec _ _); lra. }
  destruct (decide (q_oil > 0)) as [Hoil | Hoil].
  - do 3 eexists. split; [reflexivity |]. split; [reflexivity |].
    split; [exact Hmax |].
    assert (Hinv : 0 < / q_oil) by now apply Rinv_0_lt_compat.
    unfold Rdiv. split; [apply Rmult_le_pos; nra |].
    apply Rmult_le_compat_r; lra.
  - do 3 eexists. split; [reflexivity |]. split; [reflexivity |].
    split; [exact Hmax | lra].
Qed.

Lemma formation_figures_below_totals_witness :
  exists formation_gas gor1_formation gor1 : R,
    calculate_for_gas_lift (Fl 900) 800 240 (Fl 150)
      = (formation_gas, Fl gor1_formation, nadd (Fl gor1_formation) (Fl 150)) /\
    guarded_ratio (Fl 900) 240 = Some (Fl gor1) /\
    0 <= formation_gas <= 900 /\
    0 <= gor1_formation <= gor1.
Proof.
  apply (formation_figures_below_totals 900 800 240 (Fl 150)); lra.
Defined.

(** * Further properties of the pipeline *)

(** ** The result of one iteration *)

(** The fields an iteration stores for the liquid rates and the GOR. *)
Lemma process_entry_fields (params : Params) (prev : Meters) (entry : Entry) :
  exists result : gmap string pyval,
    process_entry params prev entry
      = Some ((volume_differences params prev entry).1, result) /\
    let rates :=
      entry_liquid_rates params (volume_differences params prev entry).2 entry in
    let gor1 :=
      if decide (rates.1 > 0)
      then nquot (nmul (entry_q_gas params entry) (Fl 1000)) rates.1
      else Fl 0 in
    result !! "Time" = Some (PStr (Time entry)) /\
    result !! "Q Oil" = Some (PNum (Fl rates.1)) /\
    result !! "Q Water" = Some (PNum (Fl rates.2)) /\
    result !! "Total Q" = Some (PNum (Fl (rates.1 + rates.2))) /\
    result !! "GOR1" = Some (PNum gor1) /\
    result !! "GOR2" = Some (PNum (entry_gor2 params entry)) /\
    result !! "Total GOR" = Some (PNum (nadd gor1 (entry_gor2 params entry))).
Proof.
  unfold process_entry.
  destruct (volume_differences params prev entry) as [prev' vols]; simpl.
  destruct (entry_liquid_rates params vols entry) as [q_oil q_water]; simpl.
  rewrite guarded_ratio_total. bind_step.
  eexists; split; [reflexivity |].
  destruct (decide (production_type params = "GAS LIFT")) as [Hlift | Hlift].
  - destruct (calculate_for_gas_lift _ _ _ _) as [[formation ratio] total].
    repeat split; reflexivity.
  - repeat split; reflexivity.
Qed.

(** X15: every iteration stores a result with exactly the keys "Time",
    "Q Oil", "Q Water", "Total Q", "Q Gas", "GOR1", "GOR2" and "Total GOR",
    and under GAS LIFT also "Q Gas Inj", "Formation Gas", "GOR1 Formation"
    and "Total GOR Formation"; the time label is the entry's, every other
    value is a number. *)
Theorem result_keys (params : Params) (prev : Meters) (entry : Entry) :
  exists (prev' : Meters) (result : gmap string pyval),
    process_entry params prev entry = Some (prev', result) /\
    result !! "Time" = Some (PStr (Time entry)) /\
    forall key : string,
      (is_Some (result !! key) <->
       key ∈ ["Time"; "Q Oil"; "Q Water"; "Total Q"; "Q Gas"; "GOR1"; "GOR2";
              "Total GOR"]
             ++ (if decide (production_type params = "GAS LIFT")
                 then ["Q Gas Inj"; "Formation Gas"; "GOR1 Formation";
                       "Total GOR Formation"]
                 else [])) /\
      (key <> "Time" -> forall v, result !! key = Some v -> exists n, v = PNum n).
Proof.
  unfold process_entry.
  destruct (volume_differences params prev entry) as [prev' vols]; simpl.
  destruct (entry_liquid_rates params vols entry) as [q_oil q_water]; simpl.
  rewrite guarded_ratio_total. bind_step.
  do 2 eexists. split; [reflexivity |].
  destruct (decide (production_type params = "GAS LIFT")) as [Hlift | Hlift].
  - destruct (calculate_for_gas_lift _ _ _ _) as [[formation ratio] total].
    split; [reflexivity |]. intros key. split; [split |].
    + intros [v Hkey].
      repeat (apply lookup_insert_Some in Hkey as [[<- _] | [_ Hkey]];
              [set_solver |]).
      apply lookup_singleton_Some in Hkey as [<- _]. set_solver.
    + intros Hin. simpl in Hin.
      repeat (apply elem_of_cons in Hin as [-> | Hin]; [eexists; reflexivity |]).
      now apply not_elem_of_nil in Hin.
    + intros Htime v Hkey.
      repeat (apply lookup_insert_Some in Hkey as [[_ <-] | [_ Hkey]];
              [eexists; reflexivity |]).
      apply lookup_singleton_Some in Hkey as [<- _]. contradiction.
  - split; [reflexivity |]. intros key. split; [split |].
    + intros [v Hkey].
      repeat (apply lookup_insert_Some in Hkey as [[<- _] | [_ Hkey]];
              [set_solver |]).
      apply lookup_singleton_Some in Hkey as [<- _]. set_solver.
    + intros Hin. simpl in Hin.
      repeat (apply elem_of_cons in Hin as [-> | Hin]; [eexists; reflexivity |]).
      now apply not_elem_of_nil in Hin.
    + intros Htime v Hkey.
      repeat (apply lookup_insert_Some in Hkey as [[_ <-] | [_ Hkey]];
              [eexists; reflexivity |]).
      apply lookup_singleton_Some in Hkey as [<- _]. contradiction.
Qed.

(** ** The whole calculation, continued *)

(** On the results of the loop the loop over the keys raises nothing. *)
Lemma averages_loop_on_results
    (params : Params) (prev : Meters) (ts : list Entry)
    (first : gmap string pyval) (rest : list (gmap string pyval)) :
  process_entries params prev ts = Some (first :: rest) ->
  exists averages : gmap string num,
    averages_loop (map_to_list first).*1 (first :: rest) ∅ = Some averages.
Proof.
  intros Hrun.
  pose proof (process_entries_built _ _ _ _ Hrun) as Hbuilt.
  destruct (averages_loop_result (first :: rest) (map_to_list first).*1)
    with (acc := (∅ : gmap string num)) as (averages & Hloop & _);
    [done | | now exists averages].
  intros key Hkey Htime. apply keys_of_result in Hkey.
  apply field_values_exist.
  inversion Hbuilt as [| r rs (p1 & p1' & e1 & Hfirst) _]; subst.
  eapply Forall_impl; [exact Hbuilt |].
  intros r (p2 & p2' & e2 & Hr). simpl in Hr.
  now apply (process_entry_same_fields _ _ _ _ _ _ _ _ _ _ Hfirst Hr).
Qed.

(** What [perform_calculations] leaves in the project: the results of the
    loop and, when there are any, the averages of the loop over the keys. *)
Lemma perform_calculations_run (project : Project) :
  exists (rs : list (gmap string pyval)) (avgs : gmap string num),
    process_entries (parameters project) initial_meters (time_series project)
      = Some rs /\
    perform_calculations project
      = Some {| parameters := parameters project;
                time_series := time_series project;
                results := rs;
                averages := avgs |} /\
    match rs with
    | [] => avgs = averages project
    | first :: _ => averages_loop (map_to_list first).*1 rs ∅ = Some avgs
    end.
Proof.
  destruct (process_entries_results (parameters project) (time_series project)
              initial_meters) as (rs & Hrun & _ & _).
  unfold perform_calculations. rewrite Hrun. bind_step.
  destruct rs as [| first rest].
  - exists [], (averages project). repeat split.
  - destruct (averages_loop_on_results _ _ _ _ _ Hrun) as [avgs Hloop].
    exists (first :: rest), avgs. split; [reflexivity |].
    unfold calculate_averages; simpl. rewrite Hloop. repeat split.
Qed.

(** X16: [perform_calculations] raises nothing; it keeps the parameters and
    the time series and stores one result per entry, in the order of the
    entries, each under the time label of its entry. *)
Theorem perform_calculations_results (project : Project) :
  exists project' : Project,
    perform_calculations project = Some project' /\
    parameters project' = parameters project /\
    time_series project' = time_series project /\
    length (results project') = length (time_series project) /\
    forall (i : nat) (entry : Entry),
      time_series project !! i = Some entry ->
      exists result : gmap string pyval,
        results project' !! i = Some result /\
        result !! "Time" = Some (PStr (Time entry)).
Proof.
  destruct (perform_calculations_run project) as (rs & avgs & Hrun & Hdone & _).
  eexists. split; [exact Hdone |]. simpl.
  destruct (process_entries_results (parameters project) (time_series project)
              initial_meters) as (rs' & Hrun' & Hlen & Hnth).
  rewrite Hrun in Hrun'. injection Hrun' as <-.
  repeat split; [exact Hlen |].
  intros i entry Hi.
  destruct (Hnth i entry Hi) as (result & prev' & Hres & Hbody).
  exists result. split; [exact Hres |].
  destruct (process_entry_fields (parameters project)
              (foldl (fun prev entry =>
                        (volume_differences (parameters project) prev entry).1)
                 initial_meters (take i (time_series project))) entry)
    as (r & Hr & Htime & _).
  rewrite Hbody in Hr. now injection Hr as _ ->.
Qed.

(** X17: running [perform_calculations] again on the project it has left
    changes nothing: the carried meters start from 0 at every run, and the
    results and averages stored by the first run are not read. *)
Theorem perform_calculations_idempotent (project : Project) :
  exists project' : Project,
    perform_calculations project = Some project' /\
    perform_calculations project' = Some project'.
Proof.
  destruct (perform_calculations_run project) as (rs & avgs & Hrun & Hdone & Havgs).
  eexists. split; [exact Hdone |].
  unfold perform_calculations; simpl. rewrite Hrun. bind_step.
  unfold calculate_averages; simpl.
  destruct rs as [| first rest]; [reflexivity |].
  now rewrite Havgs.
Qed.

(** ** Volumes over a series *)





(** X19: when the meter the oil rate is taken from reads the same at two
    successive entries, the second entry gets an oil rate of 0 and, by the
    guard on the oil rate, a GOR1 of 0 whatever its gas rate; its total GOR
    is then its GOR2. *)
Theorem stalled_meter_gives_zero_gor1
    (params : Params) (ts : list Entry) (i : nat) (entry entry' : Entry) :
  ts !! i = Some entry -> ts !! S i = Some entry' ->
  metered_reading params entry' = metered_reading params entry ->
  exists (results : list (gmap string pyval)) (result : gmap string pyval),
    process_entries params initial_meters ts = Some results /\
    results !! S i = Some result /\
    result !! "Q Oil" = Some (PNum (Fl 0)) /\
    result !! "GOR1" = Some (PNum (Fl 0)) /\
    result !! "Total GOR" = result !! "GOR2".
Proof.
  intros Hi Hi' Hsame.
  destruct (process_entries_results params ts initial_meters)
    as (results & Hrun & _ & Hnth).
  destruct (Hnth (S i) entry' Hi') as (result & prev' & Hres & Hbody).
  fold (meters_before params ts (S i)) in Hbody.
  exists results, result. split; [exact Hrun |]. split; [exact Hres |].
  destruct (process_entry_fields params (meters_before params ts (S i)) entry')
    as (r & Hr & _ & Hoil & _ & _ & Hgor1 & Hgor2 & Htotal).
  rewrite Hbody in Hr. injection Hr as _ <-.
  cbv zeta in *.
  assert (Hzero : (entry_liquid_rates params
                     (volume_differences params (meters_before params ts (S i))
                        entry').2 entry').1 = 0).
  { rewrite (meters_before_S params ts i entry Hi).
    revert Hsame. unfold metered_reading, volume_differences.
    destruct (decide (separation_type params = "THREE PHASES")); simpl;
      intros ->; unfold calculate_three_phase_flow, calculate_two_phase_flow;
      simpl; ring. }
  rewrite Hzero in *.
  rewrite decide_False in Hgor1, Htotal by lra.
  split; [exact Hoil |]. split; [exact Hgor1 |].
  rewrite Htotal, Hgor2. now rewrite nadd_0_l.
Qed.

Lemma stalled_meter_gives_zero_gor1_witness :
  exists (results : list (gmap string pyval)) (result : gmap string pyval),
    process_entries two_phase_params initial_meters stalled_series
      = Some results /\
    results !! 1%nat = Some result /\
    result !! "Q Oil" = Some (PNum (Fl 0)) /\
    result !! "GOR1" = Some (PNum (Fl 0)) /\
    result !! "Total GOR" = result !! "GOR2".
Proof.
  apply (stalled_meter_gives_zero_gor1 two_phase_params stalled_series 0
           (liquid_entry "00:00" 50) (liquid_entry "00:30" 50));
    reflexivity.
Defined.

(** ** The averages, continued *)

Lemma py_sum_from_string (values : list pyval) (s : string) :
  PStr s ∈ values -> forall acc : num, py_sum_from acc values = None.
Proof.
  induction values as [| v vs IH]; intros Hin acc.
  - now apply not_elem_of_nil in Hin.
  - destruct v as [s' | n]; [reflexivity |].
    apply elem_of_cons in Hin as [Heq | Hin]; [discriminate |].
    simpl. now apply IH.
Qed.

(** A result without a number under [key] stops the iteration for [key]. *)
Lemma field_sum_raises
    {A : Type} (results : list (gmap string pyval)) (key : string)
    (r : gmap string pyval) (rest : list pyval -> num -> option A) :
  r ∈ results -> (forall n : num, r !! key <> Some (PNum n)) ->
  (vs ← mapM (fun r : gmap string pyval => r !! key) results;
   total ← py_sum vs;
   rest vs total) = None.
Proof.
  intros Hin Hnot.
  destruct (mapM _ results) as [vs |] eqn:Hvs; [| reflexivity]. bind_step.
  apply mapM_Some in Hvs.
  apply list_elem_of_lookup in Hin as [i Hi].
  destruct (Forall2_lookup_l _ _ _ _ _ Hvs Hi) as (v & Hv & Hkey).
  destruct v as [s | n]; [| now destruct (Hnot n)].
  unfold py_sum. rewrite (py_sum_from_string vs s); [reflexivity |].
  apply list_elem_of_lookup. now exists i.
Qed.

Lemma averages_loop_raises
    (results : list (gmap string pyval)) (key : string) (r : gmap string pyval)
    (keys : list string) :
  key ∈ keys -> key <> "Time" -> r ∈ results ->
  (forall n : num, r !! key <> Some (PNum n)) ->
  forall acc : gmap string num, averages_loop keys results acc = None.
Proof.
  intros Hkey Htime Hin Hnot.
  induction keys as [| k ks IH]; intros acc.
  - now apply not_elem_of_nil in Hkey.
  - rewrite averages_loop_cons.
    destruct (decide (k <> "Time")) as [Hk | Hk].
    + destruct (decide (k = key)) as [-> | Hne].
      * now apply field_sum_raises with (r := r).
      * apply elem_of_cons in Hkey as [-> | Hkey]; [done |].
        destruct (mapM _ results) as [vs |]; [| reflexivity]. bind_step.
        destruct (py_sum vs) as [total |]; [| reflexivity]. bind_step.
        destruct (ndiv total _) as [mean |]; [| reflexivity]. bind_step.
        now apply IH.
    + apply dec_stable in Hk. subst k.
      apply elem_of_cons in Hkey as [-> | Hkey]; [done |]. now apply IH.
Qed.

(** X20: when some result holds no number under a key of the first result
    other than "Time" (the key is missing, or its value is a string),
    [calculate_averages] raises and stores no averages. *)
Theorem averages_raise_without_field
    (project : Project) (first r : gmap string pyval)
    (rest : list (gmap string pyval)) (key : string) :
  results project = first :: rest ->
  is_Some (first !! key) -> key <> "Time" ->
  r ∈ results project -> (forall n : num, r !! key <> Some (PNum n)) ->
  calculate_averages project = None.
Proof.
  intros Hres Hkey Htime Hin Hnot.
  unfold calculate_averages. rewrite Hres in *.
  rewrite (averages_loop_raises (first :: rest) key r); [reflexivity | | | |];
    try assumption.
  now apply keys_of_result.
Qed.

Lemma averages_raise_without_field_witness :
  calculate_averages ragged_project = None.
Proof.
  apply (averages_raise_without_field ragged_project
           (oil_rate_result "00:00" 100) {[ "Time" := PStr "00:30" ]}
           [{[ "Time" := PStr "00:30" ]}] "Q Oil").
  - reflexivity.
  - now exists (PNum (Fl 100)).
  - done.
  - simpl. set_solver.
  - intros n. rewrite lookup_singleton_ne; done.
Defined.











(** ** The data-entry table *)

(** X23: the headers of the data-entry table are pairwise distinct and
    contain every key the calculation looks up for the same separation and
    production types.  The column pre-filled with "0.0" is the oil meter for
    THREE PHASES; otherwise it is the oil temperature, the liquid meter
    being the next column. *)
Theorem data_entry_columns (separation_type production_type : string) :
  NoDup (DataEntryPage.columns separation_type production_type) /\
  DataEntryPage.keys_read separation_type production_type
    ⊆ DataEntryPage.columns separation_type production_type /\
  DataEntryPage.columns separation_type production_type
    !! DataEntryPage.start_col separation_type
    = Some (if decide (separation_type = "THREE PHASES")
            then "Meter Oil (BBL)" else "Oil T (°C)") /\
  (separation_type <> "THREE PHASES" ->
   DataEntryPage.columns separation_type production_type
     !! S (DataEntryPage.start_col separation_type)
     = Some "Meter Liquid (BBL)").
Proof.
  unfold DataEntryPage.columns, DataEntryPage.keys_read, DataEntryPage.start_col.
  destruct (decide (separation_type = "THREE PHASES")),
    (decide (production_type = "GAS LIFT")); simpl;
    (split; [apply (bool_decide_unpack _); vm_compute; exact I |];
     split; [| split; [reflexivity | done]]).
  all: intros key Hkey;
    repeat (apply elem_of_cons in Hkey as [-> | Hkey];
            [apply (bool_decide_unpack _); vm_compute; exact I |]);
    now apply not_elem_of_nil in Hkey.
Qed.

Lemma data_entry_columns_witness :
  DataEntryPage.columns "TWO PHASES" "NATURAL FLOW" !! 9%nat
    = Some "Meter Liquid (BBL)" /\
  DataEntryPage.columns "TWO PHASES" "NATURAL FLOW"
    !! DataEntryPage.start_col "TWO PHASES" = Some "Oil T (°C)".
Proof.
  split.
  - apply (data_entry_columns "TWO PHASES" "NATURAL FLOW"). done.
  - apply (data_entry_columns "TWO PHASES" "NATURAL FLOW").
Defined.
